(** * The evaluation record store of [mlflow/evaluation/fluent.py]

    A shallow embedding of the logging facade ([log_evaluation],
    [log_evaluations], [log_assessments], [get_evaluation]), of the
    assessment merge engine ([_add_assessment_to_df]) and of the stats
    driver ([_update_assessments_stats]), together with the properties the
    specification states about them.

    Conventions.
    - A pandas DataFrame is a list of rows; the row index is the position
      (the default RangeIndex a freshly read table carries), so
      [df[mask].index] is the list of positions whose row satisfies the mask
      and [df.loc[index, cols] = values] overwrites the rows at those
      positions.
    - An assessments row is the dictionary form of an [AssessmentEntity];
      the dictionary and the entity round-trip without loss, so both are
      one record here.
    - Numeric payloads (IEEE doubles in Python) are carried around by the
      facade and never inspected; they are integers here.
    - Python exceptions are the left summand of a result; effects on the
      tracking server and on the artifact store are explicit state. *)

From stdpp Require Import gmap strings list fin_maps pretty.
From Stdlib Require Import ZArith Lia.

Open Scope string_scope.
Open Scope list_scope.

(** ** Record model

    The entity classes ([mlflow.entities], [mlflow.evaluation.evaluation])
    are defined outside the source tree at hand; the records follow
    Section 3 of the specification. *)

Inductive ValueType := VBoolean | VNumeric | VString.

Inductive AssessmentValue :=
| BooleanValue (b : bool)
| NumericValue (x : Z)
| StringValue (s : string).

Inductive AssessmentSourceType := HUMAN | AI_JUDGE | CODE.

Record AssessmentSource := {
  source_type : AssessmentSourceType;
  source_id : string
}.

(** [mlflow.evaluation.evaluation.Assessment]: what a caller hands in. *)
Record Assessment := {
  assessment_name : string;
  assessment_source : AssessmentSource;
  assessment_value : AssessmentValue;
  assessment_rationale : option string
}.

(** [mlflow.entities.Assessment]: an assessment stamped with the
    evaluation it belongs to; also one row of the assessments table. *)
Record AssessmentEntity := {
  evaluation_id : string;
  name : string;
  source : AssessmentSource;
  value : AssessmentValue;
  rationale : option string
}.

Record Metric := {
  key : string;
  metric_value : Z;
  timestamp : Z;
  step : Z
}.

#[global] Instance ValueType_eq_dec : EqDecision ValueType.
Proof. solve_decision. Defined.
#[global] Instance AssessmentValue_eq_dec : EqDecision AssessmentValue.
Proof. solve_decision. Defined.
#[global] Instance AssessmentSourceType_eq_dec : EqDecision AssessmentSourceType.
Proof. solve_decision. Defined.
#[global] Instance AssessmentSource_eq_dec : EqDecision AssessmentSource.
Proof. solve_decision. Defined.
#[global] Instance AssessmentEntity_eq_dec : EqDecision AssessmentEntity.
Proof. solve_decision. Defined.

Definition value_type_of (v : AssessmentValue) : ValueType :=
  match v with
  | BooleanValue _ => VBoolean
  | NumericValue _ => VNumeric
  | StringValue _ => VString
  end.

(** Modelled from the spec: [AssessmentEntity.get_value_type] is defined in
    [mlflow/entities], not in the source tree at hand.  Section 3: the value
    is "exactly one of {boolean, numeric, string} -- the value type". *)
Definition get_value_type (a : AssessmentEntity) : ValueType :=
  value_type_of (value a).

(** The text [get_value_type] yields in Python, as it appears in messages. *)
Definition value_type_str (t : ValueType) : string :=
  match t with
  | VBoolean => "boolean"
  | VNumeric => "numeric"
  | VString => "string"
  end.

(** Modelled from the spec: [Assessment._to_entity] is defined in
    [mlflow/evaluation/evaluation.py], not in the source tree at hand.
    Section 3: [evaluation_id] is a "foreign key, assigned at log time";
    Section 4.1: the conversion loses no field. *)
Definition _to_entity (eid : string) (a : Assessment) : AssessmentEntity :=
  {| evaluation_id := eid;
     name := assessment_name a;
     source := assessment_source a;
     value := assessment_value a;
     rationale := assessment_rationale a |}.

(** ** Exceptions *)

Inductive ErrorCode :=
| INTERNAL_ERROR
| INVALID_PARAMETER_VALUE
| RESOURCE_DOES_NOT_EXIST.

Inductive Exception :=
| MlflowException (message : string) (error_code : ErrorCode)
| ValueError (message : string)
| AttributeError
| IndexError
| OSError.

Definition result (A : Type) : Type := Exception + A.

(** ** The assessment merge engine *)

Abbreviation DataFrame := (list AssessmentEntity).

(** The mask [(df["evaluation_id"] == evaluation_id) & (df["name"] == name)]. *)
Definition matches_name (eid n : string) (r : AssessmentEntity) : bool :=
  bool_decide (evaluation_id r = eid) && bool_decide (name r = n).

(** The mask that also compares the [source] column. *)
Definition matches_key (eid n : string) (s : AssessmentSource)
    (r : AssessmentEntity) : bool :=
  matches_name eid n r && bool_decide (source r = s).

(** [df[mask].index]: the positions of the rows that satisfy the mask. *)
Fixpoint index_where {A} (p : A → bool) (i : nat) (l : list A) : list nat :=
  match l with
  | [] => []
  | x :: l' => (if p x then [i] else []) ++ index_where p (S i) l'
  end.

(** [df.loc[index, cols] = values] with [cols] all the columns. *)
Definition loc_assign {A} (df : list A) (index : list nat) (row : A) : list A :=
  foldr (λ i d, <[i := row]> d) df index.

(** Modelled from the spec: [append_to_assessments_dataframe] lives in
    [mlflow/evaluation/utils.py], which is not part of the source tree at
    hand.  Section 4.3 step 3: "If no matching (name, source) row exists,
    append a new row."  The row is the dictionary of the assessment as it
    was passed, the helper receives nothing else. *)
Definition append_to_assessments_dataframe (df : DataFrame)
    (new : list AssessmentEntity) : DataFrame :=
  df ++ new.

Definition value_type_mismatch_message (n : string) (t t0 : ValueType) : string :=
  "Assessment with name '" +:+ n +:+ "' has value type '" +:+
  value_type_str t +:+ "' that does not match the value type '" +:+
  value_type_str t0 +:+ "' of existing assessments with the same name.".

(** The dictionary written by the update branch:
    [assessment.to_dictionary()] with ["evaluation_id"] set again.  The
    dictionary of an entity has one entry per field (Section 4.1), so the
    assignment to these columns replaces the row. *)
Definition restamp (a : AssessmentEntity) (eid : string) : AssessmentEntity :=
  {| evaluation_id := eid;
     name := name a;
     source := source a;
     value := value a;
     rationale := rationale a |}.

Definition _add_assessment_to_df (assessments_df : DataFrame)
    (assessment : AssessmentEntity) (eid : string) : result DataFrame :=
  let existing_assessments_matching_name :=
    filter (λ r, matches_name eid (name assessment) r = true) assessments_df in
  let type_error :=
    match existing_assessments_matching_name with
    | [] => None
    | first :: _ =>
        if forallb (λ r, bool_decide (get_value_type assessment = get_value_type r))
             existing_assessments_matching_name
        then None
        else Some (MlflowException
                     (value_type_mismatch_message (name assessment)
                        (get_value_type assessment) (get_value_type first))
                     INVALID_PARAMETER_VALUE)
    end in
  match type_error with
  | Some e => inl e
  | None =>
      let existing_assessment_index :=
        index_where (matches_key eid (name assessment) (source assessment))
          0 assessments_df in
      match existing_assessment_index with
      | _ :: _ =>
          inr (loc_assign assessments_df existing_assessment_index
                 (restamp assessment eid))
      | [] => inr (append_to_assessments_dataframe assessments_df [assessment])
      end
  end.

(** The merge of an assessment into a table, for the evaluation the
    assessment is stamped with: the only way [log_assessments] calls the
    engine. *)
Definition merge (df : DataFrame) (a : AssessmentEntity) : result DataFrame :=
  _add_assessment_to_df df a (evaluation_id a).

(** The table the update branch leaves behind, row by row. *)
Definition updated (df : DataFrame) (a : AssessmentEntity) (eid : string) : DataFrame :=
  map (λ r, if matches_key eid (name a) (source a) r then restamp a eid else r) df.

(** ** Predicates of the specification *)

(** All rows that share [(evaluation_id, name)] have one value type. *)
Definition same_type_invariant (df : DataFrame) : Prop :=
  ∀ r1 r2, r1 ∈ df → r2 ∈ df →
    evaluation_id r1 = evaluation_id r2 → name r1 = name r2 →
    get_value_type r1 = get_value_type r2.

(** Some stored row of [(eid, name a)] has a value type other than [a]'s. *)
Definition type_conflict (df : DataFrame) (a : AssessmentEntity) (eid : string) : Prop :=
  ∃ r, r ∈ df ∧ evaluation_id r = eid ∧ name r = name a ∧
       get_value_type r ≠ get_value_type a.

(** Every stored row of [(eid, name a)] has the value type of [a]. *)
Definition type_consistent (df : DataFrame) (a : AssessmentEntity) (eid : string) : Prop :=
  ∀ r, r ∈ df → evaluation_id r = eid → name r = name a →
       get_value_type r = get_value_type a.

Definition same_key (eid : string) (a r : AssessmentEntity) : Prop :=
  evaluation_id r = eid ∧ name r = name a ∧ source r = source a.

#[global] Instance same_key_dec eid a r : Decision (same_key eid a r).
Proof. unfold same_key. apply _. Defined.


(** ** Evaluations, their tables and the codec *)

Inductive Scalar :=
| JNull
| JBool (b : bool)
| JNumber (x : Z)
| JString (s : string).

Abbreviation Fields := (list (string * Scalar)).

(** [mlflow.evaluation.evaluation.Evaluation]: what a caller hands in. *)
Record Evaluation := {
  inputs : Fields;
  outputs : Fields;
  inputs_id : option string;
  request_id : option string;
  targets : option Fields;
  assessments : list Assessment;
  metrics : list Metric
}.

(** [mlflow.entities.Evaluation]. *)
Record EvaluationEntity := {
  entity_evaluation_id : string;
  entity_run_id : string;
  entity_inputs_id : option string;
  entity_request_id : option string;
  entity_inputs : Fields;
  entity_outputs : Fields;
  entity_targets : option Fields;
  entity_metrics : list Metric;
  entity_assessments : list AssessmentEntity
}.

(** One row of [_evaluations.json]. *)
Record EvaluationRow := {
  row_evaluation_id : string;
  row_run_id : string;
  row_inputs_id : option string;
  row_request_id : option string;
  row_inputs : Fields;
  row_outputs : Fields;
  row_targets : option Fields
}.

(** One row of [_metrics.json]. *)
Record MetricRow := {
  metric_evaluation_id : string;
  metric : Metric
}.

(** Modelled from the spec: [Evaluation._to_entity] is defined in
    [mlflow/evaluation/evaluation.py], not in the source tree at hand.
    Section 3: the store assigns [evaluation_id]; every assessment carries
    it as a foreign key. *)
Definition evaluation_to_entity (run_id eid : string) (e : Evaluation) : EvaluationEntity :=
  {| entity_evaluation_id := eid;
     entity_run_id := run_id;
     entity_inputs_id := inputs_id e;
     entity_request_id := request_id e;
     entity_inputs := inputs e;
     entity_outputs := outputs e;
     entity_targets := targets e;
     entity_metrics := metrics e;
     entity_assessments := map (_to_entity eid) (assessments e) |}.

Definition evaluation_row (e : EvaluationEntity) : EvaluationRow :=
  {| row_evaluation_id := entity_evaluation_id e;
     row_run_id := entity_run_id e;
     row_inputs_id := entity_inputs_id e;
     row_request_id := entity_request_id e;
     row_inputs := entity_inputs e;
     row_outputs := entity_outputs e;
     row_targets := entity_targets e |}.

(** Modelled from the spec: [evaluations_to_dataframes] of
    [mlflow/evaluation/utils.py] is not in the source tree at hand.
    Section 4.2: "turn a sequence of Evaluation entities into three
    separate flat tables -- evaluations, metrics, assessments -- where each
    metric/assessment row carries its parent evaluation_id". *)
Definition evaluations_to_dataframes (es : list EvaluationEntity)
    : list EvaluationRow * list MetricRow * DataFrame :=
  (map evaluation_row es,
   concat (map (λ e, map (λ m, {| metric_evaluation_id := entity_evaluation_id e;
                                  metric := m |}) (entity_metrics e)) es),
   concat (map entity_assessments es)).

(** Modelled from the spec: [dataframes_to_evaluations] of
    [mlflow/evaluation/utils.py] is not in the source tree at hand.
    Section 4.2: "reconstruct Evaluation entities by grouping metrics and
    assessments by evaluation_id and attaching them to the matching
    evaluation row".  The facade itself is stated for an arbitrary decoder;
    this one serves as an instance. *)
Definition dataframes_to_evaluations_model (evaluations_df : list EvaluationRow)
    (metrics_df : list MetricRow) (assessments_df : DataFrame)
    : result (list EvaluationEntity) :=
  inr (map (λ r,
         {| entity_evaluation_id := row_evaluation_id r;
            entity_run_id := row_run_id r;
            entity_inputs_id := row_inputs_id r;
            entity_request_id := row_request_id r;
            entity_inputs := row_inputs r;
            entity_outputs := row_outputs r;
            entity_targets := row_targets r;
            entity_metrics :=
              map metric
                (filter (λ m, metric_evaluation_id m = row_evaluation_id r) metrics_df);
            entity_assessments :=
              filter (λ a, evaluation_id a = row_evaluation_id r) assessments_df |})
       evaluations_df).

(** [Series.unique()]: the distinct values in order of first appearance. *)
Fixpoint unique_from {A} `{EqDecision A} (seen : list A) (l : list A) : list A :=
  match l with
  | [] => []
  | x :: l' =>
      if bool_decide (x ∈ seen) then unique_from seen l'
      else x :: unique_from (x :: seen) l'
  end.

Definition unique {A} `{EqDecision A} (l : list A) : list A := unique_from [] l.

(** Modelled from the spec: [compute_assessment_stats_by_source] of
    [mlflow/evaluation/utils.py] is not in the source tree at hand.
    Section 4.4: "given an assessment table and an assessment name, group
    matching rows by source".  The result is the dictionary from each
    source to its group; the statistics of a group are computed by
    [to_metrics], a parameter of the facade. *)
Definition compute_assessment_stats_by_source (assessments_df : DataFrame)
    (assessment_name : string) : list (AssessmentSource * list AssessmentEntity) :=
  let rows := filter (λ r, name r = assessment_name) assessments_df in
  map (λ s, (s, filter (λ r, source r = s) rows)) (unique (map source rows)).

(** A statistics instance: the total count of a group (Section 4.4: "or at
    minimum total count"), under a key made of the name and the source. *)
Definition count_to_metrics (n : string) (s : AssessmentSource)
    (group : list AssessmentEntity) : list Metric :=
  [ {| key := n +:+ "/" +:+ source_id s +:+ "/count";
       metric_value := Z.of_nat (length group);
       timestamp := 0;
       step := 0 |} ].

(** ** The world: artifact store, metric store, identifiers *)

Record Run := {
  evaluations_json : option (list EvaluationRow);
  metrics_json : option (list MetricRow);
  assessments_json : option DataFrame;
  run_metrics : list (list Metric)
}.

Definition empty_run : Run :=
  {| evaluations_json := None; metrics_json := None;
     assessments_json := None; run_metrics := [] |}.

(** What the facade asks of its collaborators, in the order it asks. *)
Inductive Event :=
| EListArtifacts (run_id : string)
| EDownload (run_id path : string)
| ELogTable (run_id path : string)
| ELogArtifact (run_id path : string)
| ELogBatch (run_id : string) (batch : list Metric)
| EComputeStats (assessment_name : string)
| EReconstruct.

Record World := {
  runs : gmap string Run;
  active_run : string;
  entropy : nat → string;
  uuid_count : nat;
  clock : Z;
  artifact_store_writable : bool;
  trace : list Event
}.

Definition get_run (w : World) (run_id : string) : Run :=
  default empty_run (runs w !! run_id).

Definition set_runs (rs : gmap string Run) (w : World) : World :=
  {| runs := rs; active_run := active_run w; entropy := entropy w;
     uuid_count := uuid_count w; clock := clock w;
     artifact_store_writable := artifact_store_writable w; trace := trace w |}.

Definition emit (e : Event) (w : World) : World :=
  {| runs := runs w; active_run := active_run w; entropy := entropy w;
     uuid_count := uuid_count w; clock := clock w;
     artifact_store_writable := artifact_store_writable w;
     trace := trace w ++ [e] |}.

(** The world after the events [tr] were observed and nothing was written. *)
Definition extend (w : World) (tr : list Event) : World :=
  {| runs := runs w; active_run := active_run w; entropy := entropy w;
     uuid_count := uuid_count w; clock := clock w;
     artifact_store_writable := artifact_store_writable w;
     trace := trace w ++ tr |}.

(** The requests of a fetch: listing, downloading, decoding.  They change
    nothing that is persisted and involve no statistics. *)
Definition is_read (e : Event) : bool :=
  match e with
  | EListArtifacts _ | EDownload _ _ | EReconstruct => true
  | _ => false
  end.

(** The names for which the aggregator was invoked, in order. *)
Definition stat_calls (tr : list Event) : list string :=
  omap (λ e, match e with EComputeStats n => Some n | _ => None end) tr.

(** The batches handed to [log_batch], in order. *)
Definition logged_batches (tr : list Event) : list (list Metric) :=
  omap (λ e, match e with ELogBatch _ b => Some b | _ => None end) tr.

Definition put_run (run_id : string) (r : Run) (w : World) : World :=
  set_runs (<[run_id := r]> (runs w)) w.

(** Computations of the facade: they may raise, and they act on the world;
    what was done before an exception stays done. *)
Definition M (A : Type) : Type := World → result A * World.

#[global] Instance M_ret : MRet M := λ A x w, (inr x, w).

#[global] Instance M_bind : MBind M := λ A B f m w,
  match m w with
  | (inl e, w') => (inl e, w')
  | (inr x, w') => f x w'
  end.

Definition raise {A} (e : Exception) : M A := λ w, (inl e, w).

Definition tell (e : Event) : M unit := λ w, (inr (), emit e w).

Definition lift_result {A} (r : result A) : M A := λ w, (r, w).

(** *** Collaborators (Section 6 of the specification) *)

(** Modelled from the spec: [_get_or_start_run] of [mlflow.tracking.fluent]
    is not in the source tree at hand.  Section 6, run resolution: "given an
    optional run id, resolve to an active/current run id if none supplied". *)
Definition resolve_run (run_id : option string) : M string := λ w,
  (inr (default (active_run w) run_id), w).

(** [uuid.uuid4().hex]: the next identifier the process supplies. *)
Definition uuid4_hex : M string := λ w,
  (inr (entropy w (uuid_count w)),
   {| runs := runs w; active_run := active_run w; entropy := entropy w;
      uuid_count := S (uuid_count w); clock := clock w;
      artifact_store_writable := artifact_store_writable w; trace := trace w |}).

(** [int(time.time() * 1000)]. *)
Definition time_ms : M Z := λ w, (inr (clock w), w).

Definition path_of_bool (present : bool) (path : string) : list string :=
  if present then [path] else [].

(** Modelled from the spec: [MlflowClient.list_artifacts], Section 6:
    "listArtifacts(runId) -> [path]": the paths of the tables the run holds. *)
Definition artifact_paths (r : Run) : list string :=
  path_of_bool (bool_decide (is_Some (evaluations_json r))) "_evaluations.json" ++
  path_of_bool (bool_decide (is_Some (metrics_json r))) "_metrics.json" ++
  path_of_bool (bool_decide (is_Some (assessments_json r))) "_assessments.json".

Definition list_artifacts (run_id : string) : M (list string) := λ w,
  (inr (artifact_paths (get_run w run_id)), emit (EListArtifacts run_id) w).

(** Modelled from the spec: [MlflowClient.download_artifacts] followed by
    the table reader, Section 6: "readTable(runId, logicalName) -> table".
    A missing artifact is an error of the artifact store. *)
Definition read_table {T} (field : Run → option T) (run_id path : string) : M T := λ w,
  match field (get_run w run_id) with
  | Some t => (inr t, emit (EDownload run_id path) w)
  | None => (inl OSError, emit (EDownload run_id path) w)
  end.

Definition read_evaluations_dataframe (run_id : string) : M (list EvaluationRow) :=
  read_table evaluations_json run_id "_evaluations.json".
Definition read_metrics_dataframe (run_id : string) : M (list MetricRow) :=
  read_table metrics_json run_id "_metrics.json".
Definition read_assessments_dataframe (run_id : string) : M DataFrame :=
  read_table assessments_json run_id "_assessments.json".

(** Modelled from the spec: [MlflowClient.log_table], Section 6:
    "writeTable(runId, logicalName, table)".  Nothing in the store is ever
    deleted (Section 3), so the rows join those already persisted.  The
    write fails as a whole when the artifact store does not accept it. *)
Definition log_table (run_id path : string) (update : Run → Run) : M unit := λ w,
  if artifact_store_writable w
  then (inr (), emit (ELogTable run_id path) (put_run run_id (update (get_run w run_id)) w))
  else (inl OSError, w).

Definition log_evaluations_table (run_id : string) (data : list EvaluationRow) : M unit :=
  log_table run_id "_evaluations.json" (λ r,
    {| evaluations_json := Some (default [] (evaluations_json r) ++ data);
       metrics_json := metrics_json r;
       assessments_json := assessments_json r;
       run_metrics := run_metrics r |}).

Definition log_metrics_table (run_id : string) (data : list MetricRow) : M unit :=
  log_table run_id "_metrics.json" (λ r,
    {| evaluations_json := evaluations_json r;
       metrics_json := Some (default [] (metrics_json r) ++ data);
       assessments_json := assessments_json r;
       run_metrics := run_metrics r |}).

Definition log_assessments_table (run_id : string) (data : DataFrame) : M unit :=
  log_table run_id "_assessments.json" (λ r,
    {| evaluations_json := evaluations_json r;
       metrics_json := metrics_json r;
       assessments_json := Some (default [] (assessments_json r) ++ data);
       run_metrics := run_metrics r |}).

(** [client._log_artifact_helper(run_id, "_assessments.json")] around
    [assessments_df.to_json]: the artifact is replaced by the whole table. *)
Definition write_assessments_json (run_id : string) (df : DataFrame) : M unit := λ w,
  if artifact_store_writable w
  then (inr (),
        emit (ELogArtifact run_id "_assessments.json")
          (put_run run_id
             (let r := get_run w run_id in
              {| evaluations_json := evaluations_json r;
                 metrics_json := metrics_json r;
                 assessments_json := Some df;
                 run_metrics := run_metrics r |}) w))
  else (inl OSError, w).

(** Modelled from the spec: [MlflowClient.log_batch], Section 6:
    "logMetrics(runId, metrics), a batched write of Metric records to the
    run's own metric time series". *)
Definition log_batch (run_id : string) (batch : list Metric) : M unit := λ w,
  (inr (),
   emit (ELogBatch run_id batch)
     (put_run run_id
        (let r := get_run w run_id in
         {| evaluations_json := evaluations_json r;
            metrics_json := metrics_json r;
            assessments_json := assessments_json r;
            run_metrics := run_metrics r ++ [batch] |}) w)).

(** The run holds the three tables. *)
Definition has_all_tables (r : Run) : Prop :=
  is_Some (evaluations_json r) ∧ is_Some (metrics_json r) ∧
  is_Some (assessments_json r).

(** The evaluations table of the run has a row of this id. *)
Definition has_evaluation_row (r : Run) (eid : string) : Prop :=
  ∃ rows row, evaluations_json r = Some rows ∧ row ∈ rows ∧
              row_evaluation_id row = eid.

Fixpoint mapM {A B} (f : A → M B) (l : list A) : M (list B) :=
  match l with
  | [] => mret []
  | x :: rest => y ← f x; ys ← mapM f rest; mret (y :: ys)
  end.

(** ** Caller-side forms and the pre-check *)

(** An element of an assessment batch: a dictionary or an [Assessment]
    object.  A dictionary is held in parsed form. *)
Inductive AssessmentArg :=
| AsDict (d : Assessment)
| AsObject (a : Assessment).

Definition is_dict (x : AssessmentArg) : bool :=
  match x with AsDict _ => true | AsObject _ => false end.

(** Modelled from the spec: [Assessment.from_dictionary] is defined in
    [mlflow/evaluation/evaluation.py], not in the source tree at hand.
    Section 4.1: the dictionary form converts to the record "without loss
    (every field round-trips)".  On what is an object already this is the
    identity; the facade applies it to dictionaries only. *)
Definition from_dictionary (x : AssessmentArg) : Assessment :=
  match x with AsDict d => d | AsObject a => a end.

(** The [assessments] argument of [log_assessments]. *)
Inductive AssessmentsArg :=
| OneDict (d : Assessment)
| OneObject (a : Assessment)
| Many (l : list AssessmentArg).

(** The [metrics] argument of [log_evaluation]. *)
Inductive MetricsArg :=
| MetricList (l : list Metric)
| MetricDict (d : list (string * Z)).

Definition same_value_type_per_name (l : list Assessment) : bool :=
  forallb (λ a,
    forallb (λ b,
      implb (bool_decide (assessment_name a = assessment_name b))
            (bool_decide (value_type_of (assessment_value a) =
                          value_type_of (assessment_value b)))) l) l.

(** Modelled from the spec: [verify_assessments_have_same_value_type] of
    [mlflow/evaluation/utils.py] is not in the source tree at hand.
    Section 4.1: "validates that a batch of assessments supplied together
    are all of the same value type for their respective names before any
    persistence is attempted"; Section 7 files the failure under
    InvalidArgument.  The wording of the message is not specified.  The
    helper reads the attributes of [Assessment] objects, which a dictionary
    does not have. *)
Definition verify_assessments_have_same_value_type (l : list AssessmentArg)
    : result unit :=
  if existsb is_dict l then inl AttributeError
  else if same_value_type_per_name (map from_dictionary l) then inr ()
  else inl (MlflowException
              "Assessments with the same name must have the same value type."
              INVALID_PARAMETER_VALUE).

Definition all_dictionaries_message : string :=
  "If `assessments` contains a dictionary, all elements must be dictionaries.".

Definition no_evaluations_message : string :=
  "The specified run does not contain any evaluations. " +:+
  "Please log evaluations to the run before retrieving them.".

Definition no_such_evaluation_message (eid run_id : string) : string :=
  "The specified evaluation ID '" +:+ eid +:+
  "' does not exist in the run '" +:+ run_id +:+ "'.".

Definition not_single_message (eid : string) (n : nat) : string :=
  "Expected to find a single evaluation with ID '" +:+ eid +:+
  "', but found " +:+ pretty n +:+ " evaluations.".

Definition any_path (path : string) (files : list string) : bool :=
  existsb (λ f, bool_decide (f = path)) files.

(** The loop of [log_assessments] over [_add_assessment_to_df]. *)
Fixpoint add_all (df : DataFrame) (l : list AssessmentEntity) (eid : string)
    : result DataFrame :=
  match l with
  | [] => inr df
  | a :: rest =>
      match _add_assessment_to_df df a eid with
      | inl e => inl e
      | inr df' => add_all df' rest eid
      end
  end.

(** The first statements of [log_assessments] on its argument. *)
Definition normalize_assessments (a : AssessmentsArg) : result (list Assessment) :=
  match a with
  | OneDict d => inr [d]
  | Many l =>
      if existsb is_dict l then
        if negb (forallb is_dict l) then inl (ValueError all_dictionaries_message)
        else inr (map from_dictionary l)
      else inr (map from_dictionary l)
  | OneObject a => inr [a]
  end.

(** ** The facade *)

Section Facade.

(** The decoder of the table codec and the statistics of one group, both
    defined outside the source tree at hand. *)
Variable dataframes_to_evaluations :
  list EvaluationRow → list MetricRow → DataFrame → result (list EvaluationEntity).
Variable to_metrics : string → AssessmentSource → list AssessmentEntity → list Metric.

(** The inner loop of [_update_assessments_stats]: one [log_batch] per
    entry of the dictionary of statistics. *)
Fixpoint log_stats (run_id n : string)
    (stats : list (AssessmentSource * list AssessmentEntity)) : M unit :=
  match stats with
  | [] => mret ()
  | (s, group) :: rest =>
      log_batch run_id (to_metrics n s group);;
      log_stats run_id n rest
  end.

Fixpoint _update_assessments_stats (run_id : string) (assessments_df : DataFrame)
    (assessment_names : list string) : M unit :=
  match assessment_names with
  | [] => mret ()
  | assessment_name :: rest =>
      tell (EComputeStats assessment_name);;
      log_stats run_id assessment_name
        (compute_assessment_stats_by_source assessments_df assessment_name);;
      _update_assessments_stats run_id assessments_df rest
  end.

Definition _contains_evaluation_artifacts (run_id : string) : M bool :=
  files ← list_artifacts run_id;
  if any_path "_evaluations.json" files then
    files ← list_artifacts run_id;
    if any_path "_metrics.json" files then
      files ← list_artifacts run_id;
      mret (any_path "_assessments.json" files)
    else mret false
  else mret false.

Definition get_evaluation (run_id eid : string) : M EvaluationEntity :=
  present ← _contains_evaluation_artifacts run_id;
  if negb present then
    raise (MlflowException no_evaluations_message RESOURCE_DOES_NOT_EXIST)
  else
    evaluations_df ← read_evaluations_dataframe run_id;
    let evaluation_row := filter (λ r, row_evaluation_id r = eid) evaluations_df in
    match evaluation_row with
    | [] =>
        raise (MlflowException (no_such_evaluation_message eid run_id)
                 RESOURCE_DOES_NOT_EXIST)
    | _ :: _ =>
        metrics_df ← read_metrics_dataframe run_id;
        assessments_df ← read_assessments_dataframe run_id;
        tell EReconstruct;;
        evaluations ← lift_result
          (dataframes_to_evaluations evaluation_row metrics_df assessments_df);
        if bool_decide (length evaluations ≠ 1) then
          raise (MlflowException (not_single_message eid (length evaluations))
                   INTERNAL_ERROR)
        else
          match evaluations with
          | e :: _ => mret e
          | [] => raise IndexError
          end
    end.

Definition log_evaluations (evaluations : list Evaluation) (run_id : option string)
    : M (list EvaluationEntity) :=
  run_id ← resolve_run run_id;
  evaluation_entities ←
    mapM (λ evaluation,
            eid ← uuid4_hex; mret (evaluation_to_entity run_id eid evaluation))
         evaluations;
  let '(evaluations_df, metrics_df, assessments_df) :=
    evaluations_to_dataframes evaluation_entities in
  log_evaluations_table run_id evaluations_df;;
  log_metrics_table run_id metrics_df;;
  log_assessments_table run_id assessments_df;;
  _update_assessments_stats run_id assessments_df (unique (map name assessments_df));;
  mret evaluation_entities.

Definition log_evaluation (inputs0 outputs0 : Fields) (inputs_id0 request_id0 : option string)
    (targets0 : option Fields) (assessments0 : list AssessmentArg)
    (metrics0 : MetricsArg) (run_id : option string) : M EvaluationEntity :=
  assessments1 ←
    match assessments0 with
    | AsDict _ :: _ =>
        if negb (forallb is_dict assessments0) then
          raise (MlflowException all_dictionaries_message INVALID_PARAMETER_VALUE)
        else mret (map (λ d, AsObject (from_dictionary d)) assessments0)
    | _ => mret assessments0
    end;
  lift_result (verify_assessments_have_same_value_type assessments1);;
  metrics1 ←
    match metrics0 with
    | MetricDict d =>
        mapM (λ kv, now ← time_ms;
                    mret {| key := kv.1; metric_value := kv.2;
                            timestamp := now; step := 0 |}) d
    | MetricList l => mret l
    end;
  let evaluation :=
    {| inputs := inputs0; outputs := outputs0; inputs_id := inputs_id0;
       request_id := request_id0; targets := targets0;
       assessments := map from_dictionary assessments1; metrics := metrics1 |} in
  logged ← log_evaluations [evaluation] run_id;
  match logged with
  | e :: _ => mret e
  | [] => raise IndexError
  end.

Definition log_assessments (eid : string) (assessments0 : AssessmentsArg)
    (run_id : option string) : M unit :=
  run_id ← resolve_run run_id;
  get_evaluation run_id eid;;
  assessments1 ← lift_result (normalize_assessments assessments0);
  let assessments2 := map (_to_entity eid) assessments1 in
  assessments_df ← read_assessments_dataframe run_id;
  assessments_df ← lift_result (add_all assessments_df assessments2 eid);
  _update_assessments_stats run_id assessments_df
    (elements (list_to_set (map name assessments2) : gset string));;
  write_assessments_json run_id assessments_df.

End Facade.

(** ** Outcomes in closed form

    What [get_evaluation] returns and what it asks of the artifact store,
    as a function of the tables of the run. *)

Definition listing_count (r : Run) : nat :=
  match evaluations_json r, metrics_json r with
  | None, _ => 1
  | Some _, None => 2
  | Some _, Some _ => 3
  end.

Definition has_all_tables_b (r : Run) : bool :=
  bool_decide (is_Some (evaluations_json r)) &&
  (bool_decide (is_Some (metrics_json r)) &&
   bool_decide (is_Some (assessments_json r))).

Definition get_evaluation_outcome
    (d2e : list EvaluationRow → list MetricRow → DataFrame →
           result (list EvaluationEntity))
    (r : Run) (run_id eid : string) : result EvaluationEntity * list Event :=
  let listings := replicate (listing_count r) (EListArtifacts run_id) in
  match evaluations_json r, metrics_json r, assessments_json r with
  | Some evaluations_df, Some metrics_df, Some assessments_df =>
      match filter (λ r, row_evaluation_id r = eid) evaluations_df with
      | [] =>
          (inl (MlflowException (no_such_evaluation_message eid run_id)
                  RESOURCE_DOES_NOT_EXIST),
           listings ++ [EDownload run_id "_evaluations.json"])
      | row :: rows =>
          (match d2e (row :: rows) metrics_df assessments_df with
           | inl e => inl e
           | inr evaluations =>
               if bool_decide (length evaluations ≠ 1) then
                 inl (MlflowException
                        (not_single_message eid (length evaluations))
                        INTERNAL_ERROR)
               else match evaluations with
                    | e :: _ => inr e
                    | [] => inl IndexError
                    end
           end,
           listings ++
           [EDownload run_id "_evaluations.json";
            EDownload run_id "_metrics.json";
            EDownload run_id "_assessments.json"; EReconstruct])
      end
  | _, _, _ =>
      (inl (MlflowException no_evaluations_message RESOURCE_DOES_NOT_EXIST),
       listings)
  end.

(** The entities [log_evaluations] builds: each evaluation takes the next
    identifier the process supplies. *)
Fixpoint assign_ids (run_id : string) (supply : nat → string) (k : nat)
    (l : list Evaluation) : list EvaluationEntity :=
  match l with
  | [] => []
  | e :: rest =>
      evaluation_to_entity run_id (supply k) e :: assign_ids run_id supply (S k) rest
  end.

(** The world after [n] identifiers were drawn. *)
Definition advance (w : World) (n : nat) : World :=
  {| runs := runs w; active_run := active_run w; entropy := entropy w;
     uuid_count := n + uuid_count w; clock := clock w;
     artifact_store_writable := artifact_store_writable w; trace := trace w |}.

(** What [_update_assessments_stats] hands to [log_batch] for one name: one
    batch per entry of the dictionary of statistics. *)
Definition stats_batches_of
    (tm : string → AssessmentSource → list AssessmentEntity → list Metric)
    (df : DataFrame) (n : string) : list (list Metric) :=
  map (λ sg, tm n sg.1 sg.2) (compute_assessment_stats_by_source df n).

Definition stats_batches
    (tm : string → AssessmentSource → list AssessmentEntity → list Metric)
    (df : DataFrame) (names : list string) : list (list Metric) :=
  concat (map (stats_batches_of tm df) names).

(** The events of [_update_assessments_stats]: per name, the invocation of
    the aggregator followed by its batches. *)
Definition stats_events
    (tm : string → AssessmentSource → list AssessmentEntity → list Metric)
    (run_id : string) (df : DataFrame) (names : list string) : list Event :=
  concat (map (λ n, EComputeStats n ::
                    map (ELogBatch run_id) (stats_batches_of tm df n)) names).

Definition add_batches (r : Run) (batches : list (list Metric)) : Run :=
  {| evaluations_json := evaluations_json r;
     metrics_json := metrics_json r;
     assessments_json := assessments_json r;
     run_metrics := run_metrics r ++ batches |}.

(** [w'] is [w] after [batches] went to the metric store of the run and
    the events [evs] were observed; no table changed. *)
Definition logged (run_id : string) (batches : list (list Metric))
    (evs : list Event) (w w' : World) : Prop :=
  get_run w' run_id = add_batches (get_run w run_id) batches ∧
  (∀ other, other ≠ run_id → runs w' !! other = runs w !! other) ∧
  trace w' = trace w ++ evs ∧
  active_run w' = active_run w ∧
  entropy w' = entropy w ∧
  uuid_count w' = uuid_count w ∧
  clock w' = clock w ∧
  artifact_store_writable w' = artifact_store_writable w.

(** The distinct names of a batch of entities, as [log_assessments] forms
    them with a set comprehension. *)
Definition touched_names (l : list AssessmentEntity) : list string :=
  elements (list_to_set (map name l) : gset string).

(** The upsert key of a row. *)
Definition key_of (r : AssessmentEntity) : string * string * AssessmentSource :=
  (evaluation_id r, name r, source r).

(** At most one row per [(evaluation_id, name, source)]. *)
Definition unique_keys (df : DataFrame) : Prop := NoDup (map key_of df).

(** [w'] differs from [w] at most in the assessments table and the metric
    series of the run: its other tables, the other runs, the identifier
    supply and the active run are those of [w]. *)
Definition touches_only_assessments (run_id : string) (w w' : World) : Prop :=
  evaluations_json (get_run w' run_id) = evaluations_json (get_run w run_id) ∧
  metrics_json (get_run w' run_id) = metrics_json (get_run w run_id) ∧
  (∀ other, other ≠ run_id → runs w' !! other = runs w !! other) ∧
  uuid_count w' = uuid_count w ∧
  active_run w' = active_run w.



(** ** Frames of the caller and [log_evaluations_df]

    The DataFrame a caller passes to [log_evaluations_df] is a list of
    column labels and, per row, the cells under their labels; a row of
    [iterrows] is the Series of its cells.  Indexing with labels that are
    not present raises KeyError, in a frame as in a Series. *)

Record Frame := {
  frame_columns : list string;
  frame_rows : list Fields
}.

(** Every row has a cell for each column, in the order of the columns. *)
Definition frame_wf (f : Frame) : Prop :=
  Forall (λ row, map fst row = frame_columns f) (frame_rows f).

(** What [log_evaluations_df] raises: the KeyError of pandas for labels
    that are not in the index, or an exception of the facade. *)
Inductive FrameException :=
| KeyError (labels : list string)
| Raised (e : Exception).

Fixpoint field_lookup (c : string) (row : Fields) : option Scalar :=
  match row with
  | [] => None
  | (k, v) :: rest => if bool_decide (k = c) then Some v else field_lookup c rest
  end.

Definition missing_labels (labels index : list string) : list string :=
  filter (λ c, c ∉ index) labels.

(** The cells under [labels], in the order of [labels]. *)
Definition project (labels : list string) (row : Fields) : Fields :=
  omap (λ c, (λ v, (c, v)) <$> field_lookup c row) labels.

(** [df[labels]] for a list of labels. *)
Definition frame_getitem (labels : list string) (f : Frame)
    : FrameException + Frame :=
  match missing_labels labels (frame_columns f) with
  | [] => inr {| frame_columns := labels;
                 frame_rows := map (project labels) (frame_rows f) |}
  | m :: ms => inl (KeyError (m :: ms))
  end.

(** [row[labels].to_dict()] for a list of labels. *)
Definition series_getitem (labels : list string) (row : Fields)
    : FrameException + Fields :=
  match missing_labels labels (map fst row) with
  | [] => inr (project labels row)
  | m :: ms => inl (KeyError (m :: ms))
  end.

(** [row[label]] for one label. *)
Definition series_get (label : string) (row : Fields) : FrameException + Scalar :=
  match field_lookup label row with
  | Some v => inr v
  | None => inl (KeyError [label])
  end.

(** The truth value Python gives an optional list and an optional string. *)
Definition truthy_list {A} (l : option (list A)) : bool :=
  match l with Some (_ :: _) => true | _ => false end.

Definition truthy_string (s : option string) : bool :=
  match s with Some s => negb (bool_decide (s = "")) | None => false end.

(** The body of the loop of [log_evaluations_df] for one row of
    [eval_data].  [render_id] is how the cell of the id column is held as
    the [inputs_id] of the evaluation. *)
Definition row_to_evaluation (render_id : Scalar → string)
    (input_cols output_cols : list string) (target_cols : option (list string))
    (inputs_id_col : option string) (has_target_data : bool) (row : Fields)
    : FrameException + Evaluation :=
  match series_getitem input_cols row with
  | inl e => inl e
  | inr inputs0 =>
      match series_getitem output_cols row with
      | inl e => inl e
      | inr outputs0 =>
          match (if has_target_data
                 then match series_getitem (default [] target_cols) row with
                      | inl e => inl e
                      | inr t => inr (Some t)
                      end
                 else inr None) with
          | inl e => inl e
          | inr targets0 =>
              match (if truthy_string inputs_id_col
                     then match series_get (default "" inputs_id_col) row with
                          | inl e => inl e
                          | inr v => inr (Some (render_id v))
                          end
                     else inr None) with
              | inl e => inl e
              | inr inputs_id0 =>
                  inr {| inputs := inputs0; outputs := outputs0;
                         inputs_id := inputs_id0; request_id := None;
                         targets := targets0; assessments := [];
                         metrics := [] |}
              end
          end
      end
  end.

Fixpoint rows_to_evaluations (f : Fields → FrameException + Evaluation)
    (rows : list Fields) : FrameException + list Evaluation :=
  match rows with
  | [] => inr []
  | row :: rest =>
      match f row with
      | inl e => inl e
      | inr ev =>
          match rows_to_evaluations f rest with
          | inl e => inl e
          | inr evs => inr (ev :: evs)
          end
      end
  end.

Definition set_field (c : string) (v : Scalar) (row : Fields) : Fields :=
  if bool_decide (c ∈ map fst row)
  then map (λ kv, if bool_decide (kv.1 = c) then (c, v) else kv) row
  else row ++ [(c, v)].

(** [df[c] = values]: the column is replaced where it stands or added as
    the last one; pandas refuses a list of another length than the frame. *)
Definition frame_setitem (c : string) (vals : list Scalar) (f : Frame)
    : FrameException + Frame :=
  if bool_decide (length vals = length (frame_rows f))
  then inr {| frame_columns :=
                if bool_decide (c ∈ frame_columns f) then frame_columns f
                else frame_columns f ++ [c];
              frame_rows :=
                zip_with (λ row v, set_field c v row) (frame_rows f) vals |}
  else inl (Raised (ValueError
              ("Length of values (" +:+ pretty (length vals) +:+
               ") does not match length of index (" +:+
               pretty (length (frame_rows f)) +:+ ")"))).

Definition log_evaluations_df
    (tm : string → AssessmentSource → list AssessmentEntity → list Metric)
    (render_id : Scalar → string)
    (run_id : string) (evaluations_df : Frame)
    (input_cols output_cols : list string)
    (inputs_id_col : option string) (target_cols : option (list string))
    : World → (FrameException + Frame) * World := λ w,
  match frame_getitem (input_cols ++ output_cols) evaluations_df with
  | inl e => (inl e, w)
  | inr eval_data =>
      match (if truthy_list target_cols
             then match frame_getitem (default [] target_cols) evaluations_df with
                  | inl e => inl e
                  | inr t => inr (Some t)
                  end
             else inr None) with
      | inl e => (inl e, w)
      | inr target_data =>
          match rows_to_evaluations
                  (row_to_evaluation render_id input_cols output_cols
                     target_cols inputs_id_col
                     (bool_decide (is_Some target_data)))
                  (frame_rows eval_data) with
          | inl e => (inl e, w)
          | inr evaluations =>
              match log_evaluations tm evaluations (Some run_id) w with
              | (inl e, w') => (inl (Raised e), w')
              | (inr evaluation_entities, w') =>
                  (frame_setitem "evaluation_id"
                     (map (λ e, JString (entity_evaluation_id e))
                        evaluation_entities)
                     evaluations_df, w')
              end
          end
      end
  end.


(** A frame of two questions with their answers and expected answers. *)
Definition sample_frame : Frame :=
  {| frame_columns := ["question"; "answer"; "expected"];
     frame_rows :=
       [[("question", JString "What is MLflow?"); ("answer", JString "A platform.");
         ("expected", JString "An MLOps platform.")];
        [("question", JString "What is a run?"); ("answer", JString "An execution.");
         ("expected", JString "One execution of code.")]] |}.

(** How the instances hold the cell of an id column. *)
Definition render_scalar (v : Scalar) : string :=
  match v with
  | JString s => s
  | JNumber x => pretty x
  | JBool true => "True"
  | JBool false => "False"
  | JNull => "None"
  end.

(** ** Sample data *)

Definition alice : AssessmentSource := {| source_type := HUMAN; source_id := "alice" |}.
Definition judge : AssessmentSource := {| source_type := AI_JUDGE; source_id := "judge-1" |}.

Definition relevance_true : Assessment :=
  {| assessment_name := "relevance"; assessment_source := alice;
     assessment_value := BooleanValue true; assessment_rationale := None |}.

Definition relevance_false : Assessment :=
  {| assessment_name := "relevance"; assessment_source := judge;
     assessment_value := BooleanValue false;
     assessment_rationale := Some "off topic" |}.

Definition relevance_score : Assessment :=
  {| assessment_name := "relevance"; assessment_source := judge;
     assessment_value := NumericValue 4; assessment_rationale := None |}.

(** A second judgement of [alice], of the value type of [relevance_true]. *)
Definition relevance_revised : Assessment :=
  {| assessment_name := "relevance"; assessment_source := alice;
     assessment_value := BooleanValue false;
     assessment_rationale := Some "revised" |}.

(** The score of [alice] under the key of [relevance_true]. *)
Definition relevance_rescored : Assessment :=
  {| assessment_name := "relevance"; assessment_source := alice;
     assessment_value := NumericValue 1; assessment_rationale := None |}.

Definition sample_evaluation : Evaluation :=
  {| inputs := [("question", JString "What is MLflow?")];
     outputs := [("answer", JString "A platform.")];
     inputs_id := None; request_id := None; targets := None;
     assessments := [relevance_true]; metrics := [] |}.

(** One evaluation whose two assessments of the name ["relevance"] have
    the value types boolean and numeric. *)
Definition mixed_evaluation : Evaluation :=
  {| inputs := [("question", JString "What is MLflow?")];
     outputs := [];
     inputs_id := None; request_id := None; targets := None;
     assessments := [relevance_true; relevance_score]; metrics := [] |}.

(** A world whose runs hold nothing yet. *)
Definition empty_world : World :=
  {| runs := ∅; active_run := "run0";
     entropy := λ n, "evaluation-" +:+ pretty n;
     uuid_count := 0; clock := 1700000000000;
     artifact_store_writable := true; trace := [] |}.

(** The world after [sample_evaluation] was logged to the active run; its
    evaluation has the id ["evaluation-0"]. *)
Definition logged_world : World :=
  (log_evaluations count_to_metrics [sample_evaluation] None empty_world).2.

(** The same world with an artifact store that refuses writes. *)
Definition offline_world : World :=
  {| runs := runs logged_world; active_run := active_run logged_world;
     entropy := entropy logged_world; uuid_count := uuid_count logged_world;
     clock := clock logged_world; artifact_store_writable := false;
     trace := trace logged_world |}.

(** A world whose evaluations table holds the row of ["evaluation-0"] twice. *)
Definition duplicated_world : World :=
  (log_evaluations_table "run0"
     (default [] (evaluations_json (get_run logged_world "run0")))
     logged_world).2.

(** * Properties of the merge engine *)

Section MergeEngine.

Implicit Types (df : DataFrame) (a r : AssessmentEntity) (eid : string).

Lemma loc_assign_index_where {A} (p : A → bool) (row : A) (l pre : list A) :
  loc_assign (pre ++ l) (index_where p (length pre) l) row =
  pre ++ map (λ x, if p x then row else x) l.
Proof.
  revert pre. induction l as [|x l IH]; intros pre; [done|].
  cbn [index_where map]. unfold loc_assign. rewrite foldr_app.
  change (foldr (λ i d, <[i:=row]> d) (pre ++ x :: l)
            (index_where p (S (length pre)) l))
    with (loc_assign (pre ++ x :: l) (index_where p (S (length pre)) l) row).
  replace (S (length pre)) with (length (pre ++ [x]))
    by (rewrite length_app; simpl; lia).
  replace (pre ++ x :: l) with ((pre ++ [x]) ++ l) by (by rewrite <- app_assoc).
  rewrite IH, <- app_assoc. simpl.
  destruct (p x); simpl; [|done].
  rewrite insert_app_r_alt by lia.
  by replace (length pre - length pre) with 0 by lia.
Qed.

Lemma loc_assign_mask {A} (p : A → bool) (row : A) (l : list A) :
  loc_assign l (index_where p 0 l) row = map (λ x, if p x then row else x) l.
Proof. apply (loc_assign_index_where p row l []). Qed.

Lemma index_where_nil {A} (p : A → bool) (k : nat) (l : list A) :
  index_where p k l = [] ↔ existsb p l = false.
Proof.
  revert k. induction l as [|x l IH]; intros k; simpl; [done|].
  destruct (p x); simpl; [split; discriminate|]. apply IH.
Qed.

Lemma matches_name_spec eid n r :
  matches_name eid n r = true ↔ evaluation_id r = eid ∧ name r = n.
Proof.
  unfold matches_name. rewrite andb_true_iff, !bool_decide_eq_true. done.
Qed.

Lemma matches_key_spec eid a r :
  matches_key eid (name a) (source a) r = true ↔ same_key eid a r.
Proof.
  unfold matches_key, same_key.
  rewrite andb_true_iff, matches_name_spec, bool_decide_eq_true. tauto.
Qed.

Lemma existsb_matches_key eid a df :
  existsb (matches_key eid (name a) (source a)) df = true ↔
  ∃ r, r ∈ df ∧ same_key eid a r.
Proof.
  rewrite existsb_exists. split; intros (r & Hr & Hk); exists r.
  - split; [by apply list_elem_of_In | by apply matches_key_spec].
  - split; [by apply list_elem_of_In | by apply matches_key_spec].
Qed.

Lemma type_check_passes df a eid :
  type_consistent df a eid →
  forallb (λ r, bool_decide (get_value_type a = get_value_type r))
    (filter (λ r, matches_name eid (name a) r = true) df) = true.
Proof.
  intros Hc. apply forallb_forall. intros r Hr.
  apply list_elem_of_In, list_elem_of_filter in Hr as [Hm Hr].
  apply matches_name_spec in Hm as [? ?].
  apply bool_decide_eq_true. symmetry. by apply Hc.
Qed.

Lemma type_check_fails df a eid :
  type_conflict df a eid →
  forallb (λ r, bool_decide (get_value_type a = get_value_type r))
    (filter (λ r, matches_name eid (name a) r = true) df) = false.
Proof.
  intros (r & Hr & He & Hn & Ht).
  apply not_true_is_false. intros Hall.
  rewrite forallb_forall in Hall.
  specialize (Hall r). rewrite bool_decide_eq_true in Hall.
  apply Ht. symmetry. apply Hall.
  apply list_elem_of_In, list_elem_of_filter. split; [|done].
  by apply matches_name_spec.
Qed.

(** When the type check passes the engine returns a table: the updated one
    if the key is present, the extended one otherwise. *)
Lemma add_consistent df a eid :
  type_consistent df a eid →
  _add_assessment_to_df df a eid =
  inr (if existsb (matches_key eid (name a) (source a)) df
       then updated df a eid else df ++ [a]).
Proof.
  intros Hc. unfold _add_assessment_to_df.
  rewrite (type_check_passes _ _ _ Hc).
  replace (match filter (λ r, matches_name eid (name a) r = true) df with
           | [] => None | _ :: _ => None end) with (@None Exception)
    by (by destruct (filter _ df)).
  destruct (index_where _ 0 df) as [|i idx] eqn:Hidx.
  - apply index_where_nil in Hidx. by rewrite Hidx.
  - assert (existsb (matches_key eid (name a) (source a)) df = true) as ->.
    { apply not_false_iff_true. intros Hf.
      apply (index_where_nil _ 0) in Hf. congruence. }
    by rewrite <- Hidx, loc_assign_mask.
Qed.

(** When some stored row of the name has another value type the engine
    raises, and the message carries the type of the first stored row of
    that name. *)
Lemma add_conflict df a eid :
  type_conflict df a eid →
  ∃ first,
    head (filter (λ r, matches_name eid (name a) r = true) df) = Some first ∧
    _add_assessment_to_df df a eid =
    inl (MlflowException
           (value_type_mismatch_message (name a) (get_value_type a)
              (get_value_type first))
           INVALID_PARAMETER_VALUE).
Proof.
  intros Hc. unfold _add_assessment_to_df.
  pose proof (type_check_fails _ _ _ Hc) as Hf.
  destruct (filter _ df) as [|first ex] eqn:Hex; [done|].
  exists first. split; [done|]. by rewrite Hf.
Qed.

Lemma consistent_or_conflict df a eid :
  type_consistent df a eid ∨ type_conflict df a eid.
Proof.
  destruct (decide (Forall (λ r, evaluation_id r = eid → name r = name a →
                                 get_value_type r = get_value_type a) df))
    as [Hall|Hex].
  - left. intros r Hr. by apply (proj1 (Forall_forall _ _) Hall).
  - right. apply not_Forall_Exists in Hex; [|solve_decision].
    apply Exists_exists in Hex as (r & Hr & Hn). exists r. split; [done|].
    destruct (decide (evaluation_id r = eid)) as [He|He];
      [|by destruct Hn; intros ?].
    destruct (decide (name r = name a)) as [Hna|Hna];
      [|by destruct Hn; intros ? ?].
    split; [done|]. split; [done|]. intros Ht. by apply Hn.
Qed.

Lemma restamp_self a : restamp a (evaluation_id a) = a.
Proof. by destruct a. Qed.

Lemma matches_key_restamp eid a :
  matches_key eid (name a) (source a) (restamp a eid) = true.
Proof. apply matches_key_spec. by unfold same_key. Qed.

Lemma matches_key_self a :
  matches_key (evaluation_id a) (name a) (source a) a = true.
Proof. apply matches_key_spec. by unfold same_key. Qed.

Lemma length_updated df a eid : length (updated df a eid) = length df.
Proof. unfold updated. by rewrite length_map. Qed.

Lemma lookup_updated df a eid i r :
  df !! i = Some r →
  updated df a eid !! i =
  Some (if decide (same_key eid a r) then restamp a eid else r).
Proof.
  intros Hi. unfold updated. rewrite list_lookup_fmap, Hi. simpl. f_equal.
  destruct (matches_key eid (name a) (source a) r) eqn:Hk.
  - apply matches_key_spec in Hk. by rewrite decide_True.
  - rewrite decide_False; [done|]. intros Hs.
    apply matches_key_spec in Hs. congruence.
Qed.

Lemma elem_of_updated df a eid r :
  r ∈ updated df a eid → r ∈ df ∨ r = restamp a eid.
Proof.
  unfold updated. intros Hr. apply list_elem_of_fmap in Hr as (r0 & -> & Hr0).
  destruct (matches_key _ _ _ r0); auto.
Qed.

Lemma updated_fixpoint df a eid :
  updated (updated df a eid) a eid = updated df a eid.
Proof.
  unfold updated. rewrite <- list_fmap_compose. apply list_fmap_ext.
  intros i r _. simpl.
  destruct (matches_key eid (name a) (source a) r) eqn:Hk.
  - by rewrite matches_key_restamp.
  - by rewrite Hk.
Qed.

Lemma updated_no_key df a eid :
  existsb (matches_key eid (name a) (source a)) df = false →
  updated df a eid = df.
Proof.
  intros Hn. unfold updated. rewrite <- (list_fmap_id df) at 2.
  apply list_fmap_ext. intros i r Hi. simpl.
  destruct (matches_key eid (name a) (source a) r) eqn:Hk; [|done].
  assert (existsb (matches_key eid (name a) (source a)) df = true) as Ht.
  { apply existsb_exists. exists r. split; [|done].
    apply list_elem_of_In. by eapply list_elem_of_lookup_2. }
  congruence.
Qed.

(** What a successful merge returns is again consistent with the
    assessment. *)
Lemma merged_consistent df a :
  type_consistent df a (evaluation_id a) →
  type_consistent
    (if existsb (matches_key (evaluation_id a) (name a) (source a)) df
     then updated df a (evaluation_id a) else df ++ [a]) a (evaluation_id a).
Proof.
  intros Hc r Hr He Hn.
  destruct (existsb _ df).
  - apply elem_of_updated in Hr as [Hr| ->]; [by apply Hc|].
    by rewrite restamp_self.
  - apply elem_of_app in Hr as [Hr|Hr]; [by apply Hc|].
    by apply list_elem_of_singleton in Hr as ->.
Qed.

(** C3, as amended: once the value-type check of the engine passes, a
    stored row of key [(evaluation_id, name, source)] makes the engine
    overwrite every such row where it stands with the fields of the new
    assessment and the given [evaluation_id], all other rows and the number
    of rows staying as they were; without such a row the engine appends the
    assessment as one row at the end, so the table has exactly one row more. *)
Theorem add_assessment_updates_or_appends df a eid :
  type_consistent df a eid →
  ((∃ r, r ∈ df ∧ same_key eid a r) →
     ∃ df', _add_assessment_to_df df a eid = inr df' ∧
       length df' = length df ∧
       ∀ i r, df !! i = Some r →
         df' !! i = Some (if decide (same_key eid a r) then restamp a eid else r)) ∧
  ((¬ ∃ r, r ∈ df ∧ same_key eid a r) →
     _add_assessment_to_df df a eid = inr (df ++ [a]) ∧
     length (df ++ [a]) = S (length df) ∧
     ∀ i r, df !! i = Some r → (df ++ [a]) !! i = Some r).
Proof.
  intros Hc. rewrite (add_consistent _ _ _ Hc). split.
  - intros Hex. apply existsb_matches_key in Hex. rewrite Hex.
    exists (updated df a eid). split; [done|]. split.
    + apply length_updated.
    + intros i r. apply lookup_updated.
  - intros Hno.
    assert (existsb (matches_key eid (name a) (source a)) df = false) as ->.
    { apply not_true_is_false. intros Ht. apply Hno. by apply existsb_matches_key. }
    split; [done|]. split.
    + rewrite length_app. simpl. lia.
    + intros i r Hi. by apply lookup_app_l_Some.
Qed.

(** C4: merging an assessment whose value type agrees with the table is
    idempotent: the merge returns a table, and merging the same assessment
    into that table returns it unchanged. *)
Theorem merge_idempotent df a :
  type_consistent df a (evaluation_id a) →
  ∃ df1, merge df a = inr df1 ∧ merge df1 a = inr df1.
Proof.
  intros Hc. unfold merge. rewrite (add_consistent _ _ _ Hc).
  eexists. split; [done|].
  rewrite (add_consistent _ _ _ (merged_consistent _ _ Hc)). f_equal.
  destruct (existsb (matches_key (evaluation_id a) (name a) (source a)) df)
    eqn:Hk.
  - assert (existsb (matches_key (evaluation_id a) (name a) (source a))
              (updated df a (evaluation_id a)) = true) as ->.
    { apply existsb_matches_key in Hk as (r & Hr & Hs).
      apply existsb_exists. exists (restamp a (evaluation_id a)). split.
      - apply list_elem_of_In. unfold updated. apply list_elem_of_fmap.
        exists r. split; [|done].
        by rewrite (proj2 (matches_key_spec _ _ _) Hs).
      - apply matches_key_restamp. }
    apply updated_fixpoint.
  - assert (existsb (matches_key (evaluation_id a) (name a) (source a))
              (df ++ [a]) = true) as ->.
    { rewrite existsb_app. simpl. rewrite matches_key_self.
      by rewrite orb_true_r. }
    unfold updated. rewrite map_app. simpl.
    fold (updated df a (evaluation_id a)). rewrite (updated_no_key _ _ _ Hk).
    by rewrite matches_key_self, restamp_self.
Qed.

(** The engine stamps the evaluation id only in its update branch: an
    assessment that carries another id than the one it is merged for is
    appended under its own id, and appended again by the next call.  The
    facade never produces such a call: it stamps every assessment with the
    id it merges for. *)
Remark add_foreign_id_appends_again :
  _add_assessment_to_df [] (_to_entity "e2" relevance_true) "e1" =
    inr [_to_entity "e2" relevance_true] ∧
  _add_assessment_to_df [_to_entity "e2" relevance_true]
    (_to_entity "e2" relevance_true) "e1" =
    inr [_to_entity "e2" relevance_true; _to_entity "e2" relevance_true].
Proof. split; reflexivity. Qed.

End MergeEngine.

(** * Properties of the facade *)

Section FacadeProperties.

Context (d2e : list EvaluationRow → list MetricRow → DataFrame →
               result (list EvaluationEntity)).
Context (tm : string → AssessmentSource → list AssessmentEntity → list Metric).

Implicit Types (w : World) (tr : list Event) (run eid : string).

Lemma extend_nil w : extend w [] = w.
Proof. destruct w. unfold extend. simpl. by rewrite app_nil_r. Qed.

Lemma extend_extend w t1 t2 : extend (extend w t1) t2 = extend w (t1 ++ t2).
Proof. unfold extend. simpl. by rewrite app_assoc. Qed.

Lemma bind_eq {A B} (m : M A) (f : A → M B) w (r : result A) w' :
  m w = (r, w') →
  (m ≫= f) w = match r with inl e => (inl e, w') | inr x => f x w' end.
Proof. unfold mbind, M_bind. by intros ->. Qed.

Lemma list_artifacts_step w tr run :
  list_artifacts run (extend w tr) =
  (inr (artifact_paths (get_run w run)), extend w (tr ++ [EListArtifacts run])).
Proof. unfold list_artifacts. f_equal. apply (extend_extend w tr [_]). Qed.

Lemma read_table_step {T} (field : Run → option T) run path w tr :
  read_table field run path (extend w tr) =
  (match field (get_run w run) with Some t => inr t | None => inl OSError end,
   extend w (tr ++ [EDownload run path])).
Proof.
  unfold read_table. change (get_run (extend w tr) run) with (get_run w run).
  destruct (field (get_run w run)); f_equal; apply (extend_extend w tr [_]).
Qed.

Lemma tell_step e w tr : tell e (extend w tr) = (inr (), extend w (tr ++ [e])).
Proof. unfold tell. f_equal. apply (extend_extend w tr [_]). Qed.

Lemma any_path_evaluations r :
  any_path "_evaluations.json" (artifact_paths r) =
  bool_decide (is_Some (evaluations_json r)).
Proof.
  unfold artifact_paths.
  by destruct (bool_decide (is_Some (evaluations_json r))),
    (bool_decide (is_Some (metrics_json r))),
    (bool_decide (is_Some (assessments_json r))).
Qed.

Lemma any_path_metrics r :
  any_path "_metrics.json" (artifact_paths r) =
  bool_decide (is_Some (metrics_json r)).
Proof.
  unfold artifact_paths.
  by destruct (bool_decide (is_Some (evaluations_json r))),
    (bool_decide (is_Some (metrics_json r))),
    (bool_decide (is_Some (assessments_json r))).
Qed.

Lemma any_path_assessments r :
  any_path "_assessments.json" (artifact_paths r) =
  bool_decide (is_Some (assessments_json r)).
Proof.
  unfold artifact_paths.
  by destruct (bool_decide (is_Some (evaluations_json r))),
    (bool_decide (is_Some (metrics_json r))),
    (bool_decide (is_Some (assessments_json r))).
Qed.

Lemma contains_step w tr run :
  _contains_evaluation_artifacts run (extend w tr) =
  (inr (has_all_tables_b (get_run w run)),
   extend w (tr ++ replicate (listing_count (get_run w run)) (EListArtifacts run))).
Proof.
  unfold _contains_evaluation_artifacts, has_all_tables_b, listing_count.
  rewrite (bind_eq _ _ _ _ _ (list_artifacts_step w tr run)).
  rewrite any_path_evaluations.
  destruct (evaluations_json (get_run w run)) as [evs|]; simpl; [|done].
  rewrite (bind_eq _ _ _ _ _ (list_artifacts_step w _ run)).
  rewrite any_path_metrics.
  destruct (metrics_json (get_run w run)) as [mes|]; simpl;
    [|by rewrite <- app_assoc].
  rewrite (bind_eq _ _ _ _ _ (list_artifacts_step w _ run)).
  rewrite any_path_assessments. by rewrite <- !app_assoc.
Qed.

(** [get_evaluation] only reads: its outcome is a function of the tables of
    the run, and the world it leaves differs by the requests it made. *)
Lemma get_evaluation_step w tr run eid :
  get_evaluation d2e run eid (extend w tr) =
  ((get_evaluation_outcome d2e (get_run w run) run eid).1,
   extend w (tr ++ (get_evaluation_outcome d2e (get_run w run) run eid).2)).
Proof.
  unfold get_evaluation, get_evaluation_outcome.
  rewrite (bind_eq _ _ _ _ _ (contains_step w tr run)).
  unfold has_all_tables_b, read_evaluations_dataframe, read_metrics_dataframe,
    read_assessments_dataframe, raise.
  destruct (evaluations_json (get_run w run)) as [evs|] eqn:Hev; simpl; [|done].
  destruct (metrics_json (get_run w run)) as [mes|] eqn:Hme; simpl; [|done].
  destruct (assessments_json (get_run w run)) as [asd|] eqn:Has; simpl; [|done].
  rewrite (bind_eq _ _ _ _ _ (read_table_step evaluations_json run _ w _)), Hev.
  destruct (filter _ evs) as [|row rows]; simpl; [by rewrite <- !app_assoc|].
  rewrite (bind_eq _ _ _ _ _ (read_table_step metrics_json run _ w _)), Hme.
  rewrite (bind_eq _ _ _ _ _ (read_table_step assessments_json run _ w _)), Has.
  rewrite (bind_eq _ _ _ _ _ (tell_step EReconstruct w _)).
  unfold lift_result, mbind, M_bind, mret, M_ret.
  rewrite <- !app_assoc. simpl.
  destruct (d2e _ _ _) as [e|recs]; [done|].
  destruct (bool_decide _); [done|]. by destruct recs.
Qed.

Lemma get_evaluation_run w run eid :
  get_evaluation d2e run eid w =
  ((get_evaluation_outcome d2e (get_run w run) run eid).1,
   extend w (get_evaluation_outcome d2e (get_run w run) run eid).2).
Proof. rewrite <- (extend_nil w) at 1. apply get_evaluation_step. Qed.

Lemma add_batches_nil r : add_batches r [] = r.
Proof. destruct r. unfold add_batches. simpl. by rewrite app_nil_r. Qed.

Lemma add_batches_app r b1 b2 :
  add_batches (add_batches r b1) b2 = add_batches r (b1 ++ b2).
Proof. unfold add_batches. simpl. by rewrite app_assoc. Qed.

Lemma logged_extend run w tr : logged run [] tr w (extend w tr).
Proof.
  unfold logged. change (get_run (extend w tr) run) with (get_run w run).
  by rewrite add_batches_nil.
Qed.

Lemma logged_trans run b1 b2 e1 e2 w w1 w2 :
  logged run b1 e1 w w1 → logged run b2 e2 w1 w2 →
  logged run (b1 ++ b2) (e1 ++ e2) w w2.
Proof.
  intros (Hr1 & Ho1 & Ht1 & Ha1 & He1 & Hu1 & Hc1 & Hw1)
         (Hr2 & Ho2 & Ht2 & Ha2 & He2 & Hu2 & Hc2 & Hw2).
  unfold logged. rewrite Hr2, Hr1, add_batches_app, Ht2, Ht1, app_assoc.
  repeat split; try congruence.
  intros other Hne. by rewrite Ho2, Ho1.
Qed.

Lemma log_batch_logged run b w :
  ∃ w', log_batch run b w = (inr (), w') ∧ logged run [b] [ELogBatch run b] w w'.
Proof.
  eexists. split; [done|]. unfold logged, get_run. simpl.
  rewrite lookup_insert_eq. repeat split; try done.
  intros other Hne. by rewrite lookup_insert_ne.
Qed.

Lemma log_stats_logged run n stats w :
  ∃ w', log_stats tm run n stats w = (inr (), w') ∧
        logged run (map (λ sg, tm n sg.1 sg.2) stats)
          (map (ELogBatch run) (map (λ sg, tm n sg.1 sg.2) stats)) w w'.
Proof.
  revert w. induction stats as [|[s g] stats IH]; intros w; simpl.
  - exists w. split; [done|]. rewrite <- (extend_nil w) at 2. apply logged_extend.
  - destruct (log_batch_logged run (tm n s g) w) as (w1 & Hb & Hl1).
    destruct (IH w1) as (w2 & Hs & Hl2).
    exists w2. split.
    + by rewrite (bind_eq _ _ _ _ _ Hb).
    + apply (logged_trans _ [_] _ [_] _ _ _ _ Hl1 Hl2).
Qed.

Lemma update_stats_logged run df names w :
  ∃ w', _update_assessments_stats tm run df names w = (inr (), w') ∧
        logged run (stats_batches tm df names) (stats_events tm run df names) w w'.
Proof.
  revert w. induction names as [|n names IH]; intros w; simpl.
  - exists w. split; [done|]. rewrite <- (extend_nil w) at 2. apply logged_extend.
  - destruct (log_stats_logged run n (compute_assessment_stats_by_source df n)
                (emit (EComputeStats n) w)) as (w1 & Hs & Hl1).
    destruct (IH w1) as (w2 & Hu & Hl2).
    exists w2. split.
    + unfold tell. unfold mbind at 1, M_bind at 1.
      by rewrite (bind_eq _ _ _ _ _ Hs).
    + unfold stats_batches, stats_events. simpl.
      change (EComputeStats n :: ?l ++ ?k) with (([EComputeStats n] ++ l) ++ k).
      refine (logged_trans _ _ _ _ _ _ _ _ _ Hl2).
      apply (logged_trans _ [] _ _ _ _ (emit (EComputeStats n) w) _
               (logged_extend run w [_]) Hl1).
Qed.

Lemma outcome_ok_tables r run eid e :
  (get_evaluation_outcome d2e r run eid).1 = inr e →
  ∃ evs mes asd,
    evaluations_json r = Some evs ∧ metrics_json r = Some mes ∧
    assessments_json r = Some asd.
Proof.
  unfold get_evaluation_outcome.
  destruct (evaluations_json r) as [evs|]; [|done].
  destruct (metrics_json r) as [mes|]; [|done].
  destruct (assessments_json r) as [asd|]; [|done].
  intros _. by exists evs, mes, asd.
Qed.

Lemma lift_bind {A B} (r : result A) (f : A → M B) w :
  (lift_result r ≫= f) w = match r with inl e => (inl e, w) | inr x => f x w end.
Proof. done. Qed.

(** The run of [log_assessments], stage by stage. *)
Lemma log_assessments_run w eid args rid :
  let run := default (active_run w) rid in
  let out := get_evaluation_outcome d2e (get_run w run) run eid in
  match out.1 with
  | inl e => log_assessments d2e tm eid args rid w = (inl e, extend w out.2)
  | inr _ =>
      match normalize_assessments args with
      | inl e => log_assessments d2e tm eid args rid w = (inl e, extend w out.2)
      | inr l =>
          ∃ df0, assessments_json (get_run w run) = Some df0 ∧
            match add_all df0 (map (_to_entity eid) l) eid with
            | inl e =>
                log_assessments d2e tm eid args rid w =
                (inl e, extend w (out.2 ++ [EDownload run "_assessments.json"]))
            | inr df1 =>
                ∃ w3,
                  logged run
                    (stats_batches tm df1 (touched_names (map (_to_entity eid) l)))
                    ((out.2 ++ [EDownload run "_assessments.json"]) ++
                     stats_events tm run df1
                       (touched_names (map (_to_entity eid) l))) w w3 ∧
                  log_assessments d2e tm eid args rid w =
                  write_assessments_json run df1 w3
            end
      end
  end.
Proof.
  intros run out. unfold log_assessments.
  rewrite (bind_eq _ _ w _ _ (eq_refl : resolve_run rid w = (inr run, w))).
  rewrite (bind_eq _ _ _ _ _ (get_evaluation_run w run eid)).
  fold out. destruct (out.1) as [e|e0] eqn:Hout; [done|].
  rewrite lift_bind.
  destruct (normalize_assessments args) as [e|l]; [done|].
  destruct (outcome_ok_tables _ _ _ _ Hout) as (evs & mes & asd & _ & _ & Has).
  exists asd. split; [done|].
  unfold read_assessments_dataframe.
  rewrite (bind_eq _ _ _ _ _ (read_table_step assessments_json run _ w _)), Has.
  rewrite lift_bind.
  destruct (add_all asd _ eid) as [e|df1]; [done|].
  destruct (update_stats_logged run df1 (touched_names (map (_to_entity eid) l))
              (extend w (out.2 ++ [EDownload run "_assessments.json"])))
    as (w3 & Hu & Hl).
  exists w3. split.
  - apply (logged_trans _ [] _ _ _ _ _ _ (logged_extend run w _) Hl).
  - unfold touched_names in Hu. by rewrite (bind_eq _ _ _ _ _ Hu).
Qed.

Lemma get_evaluation_not_found_aux w run eid :
  ¬ has_all_tables (get_run w run) ∨ ¬ has_evaluation_row (get_run w run) eid →
  ∃ msg, (get_evaluation_outcome d2e (get_run w run) run eid).1 =
         inl (MlflowException msg RESOURCE_DOES_NOT_EXIST).
Proof.
  intros Hno. unfold get_evaluation_outcome, has_all_tables, has_evaluation_row in *.
  destruct (evaluations_json (get_run w run)) as [evs|]; [|by eexists].
  destruct (metrics_json (get_run w run)) as [mes|]; [|by eexists].
  destruct (assessments_json (get_run w run)) as [asd|]; [|by eexists].
  destruct Hno as [Hno|Hno]; [by destruct Hno; eauto|].
  destruct (filter (λ r, row_evaluation_id r = eid) evs) as [|row rows] eqn:Hf;
    [by eexists|].
  destruct Hno. exists evs, row.
  assert (row ∈ filter (λ r, row_evaluation_id r = eid) evs) as Hin
    by (rewrite Hf; left).
  apply list_elem_of_filter in Hin as [? ?]. done.
Qed.

Lemma listings_read_only run k :
  Forall (λ e, e = EListArtifacts run ∨ e = EDownload run "_evaluations.json")
    (replicate k (EListArtifacts run)).
Proof. apply Forall_replicate. by left. Qed.

(** C6: [get_evaluation] raises RESOURCE_DOES_NOT_EXIST when the run lacks
    one of the three tables, and when no row of the evaluations table has
    the requested id.  In both cases it has only listed the artifacts and
    at most downloaded the evaluations table: the metrics and assessments
    tables are not fetched, the decoder is not invoked, nothing is written. *)
Theorem get_evaluation_not_found w run eid :
  ¬ has_all_tables (get_run w run) ∨ ¬ has_evaluation_row (get_run w run) eid →
  ∃ msg tr,
    get_evaluation d2e run eid w =
      (inl (MlflowException msg RESOURCE_DOES_NOT_EXIST), extend w tr) ∧
    Forall (λ e, e = EListArtifacts run ∨ e = EDownload run "_evaluations.json") tr ∧
    EReconstruct ∉ tr.
Proof.
  intros Hno. rewrite get_evaluation_run.
  assert (∀ tr,
    Forall (λ e, e = EListArtifacts run ∨ e = EDownload run "_evaluations.json") tr →
    EReconstruct ∉ tr) as Hrec.
  { intros tr Hall Hin. rewrite Forall_forall in Hall.
    by destruct (Hall _ Hin). }
  unfold get_evaluation_outcome, has_all_tables, has_evaluation_row in *.
  destruct (evaluations_json (get_run w run)) as [evs|];
    [|by eexists _, _; split; [done|]; split;
        [apply listings_read_only | apply Hrec, listings_read_only]].
  destruct (metrics_json (get_run w run)) as [mes|];
    [|by eexists _, _; split; [done|]; split;
        [apply listings_read_only | apply Hrec, listings_read_only]].
  destruct (assessments_json (get_run w run)) as [asd|];
    [|by eexists _, _; split; [done|]; split;
        [apply listings_read_only | apply Hrec, listings_read_only]].
  destruct Hno as [Hno|Hno]; [by destruct Hno; eauto|].
  destruct (filter (λ r, row_evaluation_id r = eid) evs) as [|row rows] eqn:Hf.
  - assert (∀ k, Forall (λ e, e = EListArtifacts run ∨
                              e = EDownload run "_evaluations.json")
              (replicate k (EListArtifacts run) ++
               [EDownload run "_evaluations.json"])) as Hall.
    { intros k. apply Forall_app. split; [apply listings_read_only|].
      apply Forall_singleton. by right. }
    eexists _, _. split; [done|]. split; [apply Hall | apply Hrec, Hall].
  - destruct Hno. exists evs, row.
    assert (row ∈ filter (λ r, row_evaluation_id r = eid) evs) as Hin
      by (rewrite Hf; left).
    apply list_elem_of_filter in Hin as [? ?]. done.
Qed.

(** C8: when the run holds the three tables and the evaluations table has
    rows of the requested id, [get_evaluation] hands these rows to the
    decoder; if the decoder returns a number of records other than one the
    call raises INTERNAL_ERROR with a message that gives that number, and
    if it returns exactly one record the call returns it. *)
Theorem get_evaluation_expects_single_record w run eid evs mes asd row rows recs :
  evaluations_json (get_run w run) = Some evs →
  metrics_json (get_run w run) = Some mes →
  assessments_json (get_run w run) = Some asd →
  filter (λ r, row_evaluation_id r = eid) evs = row :: rows →
  d2e (row :: rows) mes asd = inr recs →
  (length recs ≠ 1 →
     (get_evaluation d2e run eid w).1 =
     inl (MlflowException (not_single_message eid (length recs)) INTERNAL_ERROR)) ∧
  (∀ e, recs = [e] → (get_evaluation d2e run eid w).1 = inr e).
Proof.
  intros Hev Hme Has Hf Hd. rewrite get_evaluation_run. simpl.
  unfold get_evaluation_outcome. rewrite Hev, Hme, Has, Hf. simpl. rewrite Hd.
  split.
  - intros Hlen. by rewrite bool_decide_eq_true_2.
  - by intros e ->.
Qed.

Lemma outcome_read_only r run eid :
  Forall (λ ev, is_read ev = true) (get_evaluation_outcome d2e r run eid).2.
Proof.
  unfold get_evaluation_outcome.
  destruct (evaluations_json _); [|by apply Forall_replicate].
  destruct (metrics_json _); [|by apply Forall_replicate].
  destruct (assessments_json _); [|by apply Forall_replicate].
  destruct (filter _ _); simpl; apply Forall_app; split;
    try (by apply Forall_replicate); by repeat constructor.
Qed.

Lemma write_assessments_json_run run df w :
  write_assessments_json run df w =
  if artifact_store_writable w
  then (inr (),
        emit (ELogArtifact run "_assessments.json")
          (put_run run
             {| evaluations_json := evaluations_json (get_run w run);
                metrics_json := metrics_json (get_run w run);
                assessments_json := Some df;
                run_metrics := run_metrics (get_run w run) |} w))
  else (inl OSError, w).
Proof. done. Qed.

(** C7: [log_assessments] starts by fetching the evaluation.  Its run is the
    run of [get_evaluation] followed by the rest: when the fetch raises,
    the call raises the same exception in the world the fetch left, whose
    persisted state is the initial one; when the fetch succeeds, whatever
    the call does next (reading the assessments table, merging, statistics,
    the write) comes after the requests of the fetch.  When the run lacks a
    table or the evaluations table has no row of the id, the exception is
    RESOURCE_DOES_NOT_EXIST and nothing was written. *)
Theorem log_assessments_verifies_evaluation_first w eid args rid :
  let run := default (active_run w) rid in
  ∃ r1 tr1,
    get_evaluation d2e run eid w = (r1, extend w tr1) ∧
    (∀ e, r1 = inl e →
       log_assessments d2e tm eid args rid w = (inl e, extend w tr1) ∧
       runs (extend w tr1) = runs w ∧
       Forall (λ ev, is_read ev = true) tr1) ∧
    (∀ ev, r1 = inr ev →
       ∃ r2 w2 tr2,
         log_assessments d2e tm eid args rid w = (r2, w2) ∧
         trace w2 = trace w ++ tr1 ++ tr2) ∧
    (¬ has_all_tables (get_run w run) ∨ ¬ has_evaluation_row (get_run w run) eid →
       ∃ msg,
         log_assessments d2e tm eid args rid w =
         (inl (MlflowException msg RESOURCE_DOES_NOT_EXIST), extend w tr1)).
Proof.
  intros run.
  pose proof (log_assessments_run w eid args rid) as Hrun. cbv zeta in Hrun.
  fold run in Hrun.
  pose proof (get_evaluation_run w run eid) as Hget.
  set (out := get_evaluation_outcome d2e (get_run w run) run eid) in *.
  exists out.1, out.2. split; [done|]. split; [|split].
  - intros e He. rewrite He in Hrun. split; [done|]. split; [done|].
    apply outcome_read_only.
  - intros ev Hev. rewrite Hev in Hrun.
    destruct (normalize_assessments args) as [e|l].
    { eexists _, _, []. split; [done|]. simpl. by rewrite app_nil_r. }
    destruct Hrun as (df0 & Hdf0 & Hrun).
    destruct (add_all df0 _ eid) as [e|df1].
    { eexists _, _, [_]. split; [done|]. done. }
    destruct Hrun as (w3 & Hl & Hrun). rewrite Hrun, write_assessments_json_run.
    destruct Hl as (_ & _ & Ht & _).
    destruct (artifact_store_writable w3).
    + eexists _, _, _. split; [done|]. simpl. rewrite Ht.
      rewrite <- !app_assoc. done.
    + eexists _, _, _. split; [done|]. rewrite Ht.
      rewrite <- !app_assoc. done.
  - intros Hno.
    destruct (get_evaluation_not_found_aux w run eid Hno) as (msg & Hmsg).
    exists msg. fold out in Hmsg. by rewrite Hmsg in Hrun.
Qed.

Lemma stat_calls_app t1 t2 : stat_calls (t1 ++ t2) = stat_calls t1 ++ stat_calls t2.
Proof. apply omap_app. Qed.

Lemma logged_batches_app t1 t2 :
  logged_batches (t1 ++ t2) = logged_batches t1 ++ logged_batches t2.
Proof. apply omap_app. Qed.

Lemma stat_calls_batches run (bs : list (list Metric)) :
  stat_calls (map (ELogBatch run) bs) = [].
Proof. by induction bs. Qed.

Lemma logged_batches_batches run (bs : list (list Metric)) :
  logged_batches (map (ELogBatch run) bs) = bs.
Proof.
  induction bs as [|b bs IH]; [done|].
  change (logged_batches (map (ELogBatch run) (b :: bs)))
    with (b :: logged_batches (map (ELogBatch run) bs)).
  by rewrite IH.
Qed.

Lemma stat_calls_stats_events run df names :
  stat_calls (stats_events tm run df names) = names.
Proof.
  induction names as [|n names IH]; [done|].
  unfold stats_events in *. simpl.
  change (EComputeStats n :: ?l ++ ?k) with ([EComputeStats n] ++ l ++ k).
  rewrite !stat_calls_app, stat_calls_batches, IH. done.
Qed.

Lemma logged_batches_stats_events run df names :
  logged_batches (stats_events tm run df names) = stats_batches tm df names.
Proof.
  induction names as [|n names IH]; [done|].
  unfold stats_events, stats_batches in *. simpl.
  change (EComputeStats n :: ?l ++ ?k) with ([EComputeStats n] ++ l ++ k).
  rewrite !logged_batches_app, logged_batches_batches, IH. done.
Qed.

Lemma stat_calls_read_only tr :
  Forall (λ ev, match ev with EComputeStats _ => False | _ => True end) tr →
  stat_calls tr = [].
Proof.
  induction 1 as [|e tr He _ IH]; [done|]. unfold stat_calls in *. simpl.
  by destruct e.
Qed.

(** A successful run of [log_assessments], as a sequence of requests. *)
Lemma log_assessments_logs_stats_aux w eid args rid w' :
  log_assessments d2e tm eid args rid w = (inr (), w') →
  ∃ tr_read l df1,
    normalize_assessments args = inr l ∧
    Forall (λ ev, is_read ev = true) tr_read ∧
    trace w' = trace w ++ tr_read ++
      stats_events tm (default (active_run w) rid) df1
        (touched_names (map (_to_entity eid) l)) ++
      [ELogArtifact (default (active_run w) rid) "_assessments.json"] ∧
    assessments_json (get_run w' (default (active_run w) rid)) = Some df1.
Proof.
  intros Hok.
  pose proof (log_assessments_run w eid args rid) as Hrun. cbv zeta in Hrun.
  set (run := default (active_run w) rid) in *.
  set (out := get_evaluation_outcome d2e (get_run w run) run eid) in *.
  destruct (out.1) as [e|ev] eqn:Hout; [congruence|].
  destruct (normalize_assessments args) as [e|l]; [congruence|].
  destruct Hrun as (df0 & Hdf0 & Hrun).
  destruct (add_all df0 _ eid) as [e|df1] eqn:Hadd; [congruence|].
  destruct Hrun as (w3 & Hl & Hrun).
  rewrite Hrun, write_assessments_json_run in Hok.
  destruct Hl as (Hr3 & _ & Ht3 & _).
  destruct (artifact_store_writable w3); [|congruence].
  injection Hok as <-.
  exists (out.2 ++ [EDownload run "_assessments.json"]), l, df1.
  split; [done|]. split; [|split].
  - apply Forall_app. split; [apply outcome_read_only | by repeat constructor].
  - simpl. rewrite Ht3. by rewrite <- !app_assoc.
  - unfold get_run at 1. simpl. by rewrite lookup_insert_eq.
Qed.

(** C10: on every successful run of [log_assessments] the requests it made
    are, in order: reads, then the statistics of the updated in-memory
    table (each invocation of the aggregator with its [log_batch] calls),
    and last the write of that table; the metric store of the run holds the
    batches computed from the table that the write persists.  When the
    artifact store refuses the final write, the call raises after the same
    batches were logged: the metric store reflects the updated table while
    the persisted assessments table is still the one that was read. *)
Theorem log_assessments_logs_stats_before_table w eid args rid :
  let run := default (active_run w) rid in
  (∀ w', log_assessments d2e tm eid args rid w = (inr (), w') →
     ∃ tr_read l df0 df1,
       normalize_assessments args = inr l ∧
       assessments_json (get_run w run) = Some df0 ∧
       add_all df0 (map (_to_entity eid) l) eid = inr df1 ∧
       Forall (λ ev, is_read ev = true) tr_read ∧
       trace w' = trace w ++ tr_read ++
         stats_events tm run df1 (touched_names (map (_to_entity eid) l)) ++
         [ELogArtifact run "_assessments.json"] ∧
       run_metrics (get_run w' run) =
         run_metrics (get_run w run) ++
         stats_batches tm df1 (touched_names (map (_to_entity eid) l)) ∧
       assessments_json (get_run w' run) = Some df1) ∧
  (artifact_store_writable w = false →
   ∀ ev l df0 df1,
     (get_evaluation d2e run eid w).1 = inr ev →
     normalize_assessments args = inr l →
     assessments_json (get_run w run) = Some df0 →
     add_all df0 (map (_to_entity eid) l) eid = inr df1 →
     ∃ w', log_assessments d2e tm eid args rid w = (inl OSError, w') ∧
       logged_batches (drop (length (trace w)) (trace w')) =
         stats_batches tm df1 (touched_names (map (_to_entity eid) l)) ∧
       run_metrics (get_run w' run) =
         run_metrics (get_run w run) ++
         stats_batches tm df1 (touched_names (map (_to_entity eid) l)) ∧
       assessments_json (get_run w' run) = Some df0).
Proof.
  intros run.
  pose proof (log_assessments_run w eid args rid) as Hrun. cbv zeta in Hrun.
  fold run in Hrun.
  set (out := get_evaluation_outcome d2e (get_run w run) run eid) in *.
  split.
  - intros w' Hok.
    destruct (out.1) as [e|ev] eqn:Hout; [congruence|].
    destruct (normalize_assessments args) as [e|l]; [congruence|].
    destruct Hrun as (df0 & Hdf0 & Hrun).
    destruct (add_all df0 _ eid) as [e|df1] eqn:Hadd; [congruence|].
    destruct Hrun as (w3 & Hl & Hrun).
    rewrite Hrun, write_assessments_json_run in Hok.
    destruct Hl as (Hr3 & _ & Ht3 & _).
    destruct (artifact_store_writable w3); [|congruence].
    injection Hok as <-.
    exists (out.2 ++ [EDownload run "_assessments.json"]), l, df0, df1.
    split; [done|]. split; [done|]. split; [done|]. split; [|split; [|split]].
    + apply Forall_app. split; [apply outcome_read_only | by repeat constructor].
    + simpl. rewrite Ht3. by rewrite <- !app_assoc.
    + unfold get_run at 1. simpl. rewrite lookup_insert_eq. simpl.
      by rewrite Hr3.
    + unfold get_run at 1. simpl. by rewrite lookup_insert_eq.
  - intros Hw ev l df0 df1 Hget Hnorm Hdf0 Hadd.
    rewrite get_evaluation_run in Hget. simpl in Hget. fold out in Hget.
    rewrite Hget, Hnorm in Hrun.
    destruct Hrun as (df0' & Hdf0' & Hrun).
    assert (df0' = df0) as -> by congruence.
    rewrite Hadd in Hrun. destruct Hrun as (w3 & Hl & Hrun).
    rewrite Hrun, write_assessments_json_run.
    destruct Hl as (Hr3 & _ & Ht3 & _ & _ & _ & _ & Hw3).
    rewrite Hw3, Hw. exists w3. split; [done|]. split; [|split].
    + rewrite Ht3, drop_app_length, logged_batches_app.
      rewrite logged_batches_stats_events.
      assert (∀ tr, Forall (λ ev, is_read ev = true) tr →
                    logged_batches tr = []) as Hnone.
      { induction 1 as [|e tr He _ IH]; [done|].
        unfold logged_batches in *. simpl. by destruct e. }
      rewrite Hnone; [done|].
      apply Forall_app. split; [apply outcome_read_only | by repeat constructor].
    + by rewrite Hr3.
    + by rewrite Hr3.
Qed.

Lemma advance_zero w : advance w 0 = w.
Proof. by destruct w. Qed.

Lemma mapM_assign run l w :
  mapM (λ evaluation,
          eid ← uuid4_hex; mret (evaluation_to_entity run eid evaluation)) l w =
  (inr (assign_ids run (entropy w) (uuid_count w) l), advance w (length l)).
Proof.
  revert w. induction l as [|e l IH]; intros w.
  - simpl. by rewrite advance_zero.
  - cbn [mapM]. unfold mbind at 1, M_bind at 1. unfold mbind at 1, M_bind at 1.
    unfold uuid4_hex at 1. cbn [mret M_ret].
    unfold mbind at 1, M_bind at 1. rewrite IH. cbn.
    f_equal. unfold advance. cbn. f_equal. lia.
Qed.

Lemma bind_inv_ok {A B} (m : M A) (f : A → M B) w (y : B) w' :
  (m ≫= f) w = (inr y, w') →
  ∃ x w1, m w = (inr x, w1) ∧ f x w1 = (inr y, w').
Proof.
  unfold mbind, M_bind. destruct (m w) as [[e|x] w1]; [done|]. eauto.
Qed.

Lemma log_table_ok run path upd w w' :
  log_table run path upd w = (inr (), w') →
  trace w' = trace w ++ [ELogTable run path] ∧
  artifact_store_writable w = true.
Proof.
  unfold log_table. destruct (artifact_store_writable w); [|done].
  by intros [= <-].
Qed.

(** A successful run of [log_evaluations]: the three tables are written,
    then the statistics of the names of the batch are logged. *)
Lemma log_evaluations_ok evaluations rid w r w' :
  log_evaluations tm evaluations rid w = (inr r, w') →
  let run := default (active_run w) rid in
  let df := concat (map entity_assessments r) in
  r = assign_ids run (entropy w) (uuid_count w) evaluations ∧
  artifact_store_writable w = true ∧
  trace w' = trace w ++
    [ELogTable run "_evaluations.json"; ELogTable run "_metrics.json";
     ELogTable run "_assessments.json"] ++
    stats_events tm run df (unique (map name df)).
Proof.
  intros Hok run df. unfold log_evaluations in Hok.
  apply bind_inv_ok in Hok as (run' & w0 & Hres & Hok).
  injection Hres as <- <-. fold run in Hok.
  apply bind_inv_ok in Hok as (es & w1 & Hes & Hok).
  rewrite mapM_assign in Hes. injection Hes as <- <-.
  unfold evaluations_to_dataframes in Hok. cbv beta iota zeta in Hok.
  apply bind_inv_ok in Hok as ([] & w2 & H1 & Hok).
  apply bind_inv_ok in Hok as ([] & w3 & H2 & Hok).
  apply bind_inv_ok in Hok as ([] & w4 & H3 & Hok).
  apply bind_inv_ok in Hok as ([] & w5 & H4 & Hok).
  injection Hok as <- <-.
  apply log_table_ok in H1 as [Ht1 Hw]. apply log_table_ok in H2 as [Ht2 _].
  apply log_table_ok in H3 as [Ht3 _].
  destruct (update_stats_logged run df (unique (map name df)) w4)
    as (w5' & Hu & Hl).
  subst df. rewrite Hu in H4. injection H4 as <-.
  destruct Hl as (_ & _ & Ht & _).
  split; [done|]. split; [done|].
  rewrite Ht, Ht3, Ht2, Ht1. cbn [trace advance].
  by rewrite <- !app_assoc.
Qed.



Lemma unique_from_spec {A} `{EqDecision A} (seen l : list A) :
  NoDup (unique_from seen l) ∧
  ∀ x, x ∈ unique_from seen l ↔ x ∈ l ∧ x ∉ seen.
Proof.
  revert seen. induction l as [|y l IH]; intros seen; simpl.
  - split; [constructor|]. intros x. rewrite elem_of_nil. tauto.
  - case_bool_decide as Hy.
    + destruct (IH seen) as [Hnd Hin]. split; [done|].
      intros x. rewrite Hin, elem_of_cons. split; [tauto|].
      intros [[->|?] ?]; tauto.
    + destruct (IH (y :: seen)) as [Hnd Hin]. split.
      * constructor; [|done]. rewrite Hin, elem_of_cons. tauto.
      * intros x. rewrite !elem_of_cons, Hin, elem_of_cons.
        destruct (decide (x = y)) as [->|]; tauto.
Qed.

Lemma NoDup_unique {A} `{EqDecision A} (l : list A) : NoDup (unique l).
Proof. apply unique_from_spec. Qed.

Lemma elem_of_unique {A} `{EqDecision A} (l : list A) x : x ∈ unique l ↔ x ∈ l.
Proof.
  unfold unique. rewrite (proj2 (unique_from_spec [] l)), elem_of_nil. tauto.
Qed.

Lemma NoDup_touched_names (l : list AssessmentEntity) : NoDup (touched_names l).
Proof. unfold touched_names. apply NoDup_elements. Qed.

Lemma elem_of_touched_names (l : list AssessmentEntity) n :
  n ∈ touched_names l ↔ n ∈ map name l.
Proof. unfold touched_names. by rewrite elem_of_elements, elem_of_list_to_set. Qed.

Lemma stats_keys df n :
  map fst (compute_assessment_stats_by_source df n) =
  unique (map source (filter (λ r, name r = n) df)).
Proof.
  unfold compute_assessment_stats_by_source.
  rewrite map_map. simpl. apply map_id.
Qed.

(** C9: a successful [log_evaluations] and a successful [log_assessments]
    invoke the stats aggregator once for each distinct assessment name of
    the write and for no other name: the names of the invocations are
    duplicate-free and are the names of the assessments written; the
    batches logged are those of these invocations.  An invocation for a
    name logs one batch for each distinct source among the rows of that
    name. *)
Theorem stats_once_per_touched_name :
  (∀ evaluations rid w r w',
     log_evaluations tm evaluations rid w = (inr r, w') →
     ∃ tr, trace w' = trace w ++ tr ∧
       NoDup (stat_calls tr) ∧
       (∀ n, n ∈ stat_calls tr ↔
             n ∈ map name (concat (map entity_assessments r))) ∧
       logged_batches tr =
         stats_batches tm (concat (map entity_assessments r)) (stat_calls tr)) ∧
  (∀ eid args rid w w',
     log_assessments d2e tm eid args rid w = (inr (), w') →
     ∃ tr l df1,
       normalize_assessments args = inr l ∧
       assessments_json (get_run w' (default (active_run w) rid)) = Some df1 ∧
       trace w' = trace w ++ tr ∧
       NoDup (stat_calls tr) ∧
       (∀ n, n ∈ stat_calls tr ↔ n ∈ map assessment_name l) ∧
       logged_batches tr = stats_batches tm df1 (stat_calls tr)) ∧
  (∀ df n,
     ∃ sources,
       NoDup sources ∧
       (∀ s, s ∈ sources ↔ ∃ r, r ∈ df ∧ name r = n ∧ source r = s) ∧
       stats_batches_of tm df n =
         map (λ s, tm n s (filter (λ r, source r = s)
                             (filter (λ r, name r = n) df))) sources).
Proof.
  split; [|split].
  - intros evaluations rid w r w' Hok.
    destruct (log_evaluations_ok _ _ _ _ _ Hok) as (_ & _ & Ht).
    eexists. split; [exact Ht|].
    rewrite (stat_calls_app [_; _; _]), (logged_batches_app [_; _; _]).
    rewrite stat_calls_stats_events, logged_batches_stats_events. simpl.
    split; [apply NoDup_unique|]. split; [|done].
    intros n. apply elem_of_unique.
  - intros eid args rid w w' Hok.
    destruct (log_assessments_logs_stats_aux w eid args rid w' Hok)
      as (tr_read & l & df1 & Hn & Hread & Ht & Hdf).
    exists (tr_read ++
            stats_events tm (default (active_run w) rid) df1
              (touched_names (map (_to_entity eid) l)) ++
            [ELogArtifact (default (active_run w) rid) "_assessments.json"]),
      l, df1.
    split; [done|]. split; [done|]. split; [done|].
    rewrite !stat_calls_app, !logged_batches_app.
    rewrite stat_calls_stats_events, logged_batches_stats_events.
    assert (stat_calls tr_read = []) as ->.
    { apply stat_calls_read_only. eapply Forall_impl; [exact Hread|].
      by intros []. }
    assert (logged_batches tr_read = []) as ->.
    { clear -Hread. induction Hread as [|e tr He _ IH]; [done|].
      unfold logged_batches in *. simpl. by destruct e. }
    simpl. rewrite !app_nil_r.
    split; [apply NoDup_touched_names|]. split; [|done].
    intros n. rewrite elem_of_touched_names, map_map. done.
  - intros df n. exists (unique (map source (filter (λ r, name r = n) df))).
    split; [apply NoDup_unique|]. split.
    + intros s. rewrite elem_of_unique, list_elem_of_fmap. split.
      * intros (r & -> & Hr). apply list_elem_of_filter in Hr as [? ?]. eauto.
      * intros (r & Hr & Hn & <-). exists r. split; [done|].
        by apply list_elem_of_filter.
    + unfold stats_batches_of, compute_assessment_stats_by_source.
      by rewrite map_map.
Qed.

Lemma merged_invariant df a :
  same_type_invariant df →
  type_consistent df a (evaluation_id a) →
  same_type_invariant
    (if existsb (matches_key (evaluation_id a) (name a) (source a)) df
     then updated df a (evaluation_id a) else df ++ [a]).
Proof.
  intros Hinv Hc.
  assert (∀ r, r ∈ (if existsb (matches_key (evaluation_id a) (name a) (source a)) df
                    then updated df a (evaluation_id a) else df ++ [a]) →
               r ∈ df ∨ r = a) as Hrows.
  { intros r Hr. destruct (existsb _ df).
    - apply elem_of_updated in Hr as [?|Hr]; [by left|].
      right. by rewrite restamp_self in Hr.
    - apply elem_of_app in Hr as [?|Hr]; [by left|].
      right. by apply list_elem_of_singleton in Hr. }
  intros r1 r2 H1 H2 He Hn.
  destruct (Hrows _ H1) as [H1'| ->], (Hrows _ H2) as [H2'| ->].
  - by apply Hinv.
  - by apply Hc.
  - symmetry. by apply Hc.
  - done.
Qed.

(** Whenever a merge of the batch raises, [log_assessments] raises the same
    exception and nothing that is persisted has changed, whatever the
    merges before it did to the in-memory table. *)
Lemma log_assessments_failed_merge_preserves_store w eid args rid ev l df0 e :
  (get_evaluation d2e (default (active_run w) rid) eid w).1 = inr ev →
  normalize_assessments args = inr l →
  assessments_json (get_run w (default (active_run w) rid)) = Some df0 →
  add_all df0 (map (_to_entity eid) l) eid = inl e →
  ∃ w', log_assessments d2e tm eid args rid w = (inl e, w') ∧ runs w' = runs w.
Proof.
  intros Hget Hnorm Hdf Hadd.
  pose proof (log_assessments_run w eid args rid) as Hrun. cbv zeta in Hrun.
  rewrite get_evaluation_run in Hget. simpl in Hget.
  rewrite Hget, Hnorm in Hrun. destruct Hrun as (df0' & Hdf0' & Hrun).
  assert (df0' = df0) as -> by congruence.
  rewrite Hadd in Hrun. eexists. split; [exact Hrun|done].
Qed.

(** C2: let the table satisfy the invariant that rows of one
    [(evaluation_id, name)] have one value type, and let an assessment be
    merged for the evaluation it is stamped with.  If a stored row of its
    [(evaluation_id, name)] has another value type, the engine raises
    INVALID_PARAMETER_VALUE with a message that gives the value type of the
    assessment and the value type all stored rows of that name have, and
    [log_assessments] called with this assessment on a run that persists
    the table raises that exception and leaves every persisted table and
    metric as it was.  Otherwise the engine returns a table, and the
    invariant holds of it. *)
Theorem merge_keeps_value_types_consistent df a :
  same_type_invariant df →
  (type_conflict df a (evaluation_id a) →
     ∃ t0,
       t0 ≠ get_value_type a ∧
       (∀ r, r ∈ df → evaluation_id r = evaluation_id a → name r = name a →
             get_value_type r = t0) ∧
       merge df a =
         inl (MlflowException
                (value_type_mismatch_message (name a) (get_value_type a) t0)
                INVALID_PARAMETER_VALUE) ∧
       ∀ w x rid ev,
         _to_entity (evaluation_id a) x = a →
         (get_evaluation d2e (default (active_run w) rid) (evaluation_id a) w).1
           = inr ev →
         assessments_json (get_run w (default (active_run w) rid)) = Some df →
         ∃ w',
           log_assessments d2e tm (evaluation_id a) (OneObject x) rid w =
             (inl (MlflowException
                     (value_type_mismatch_message (name a) (get_value_type a) t0)
                     INVALID_PARAMETER_VALUE), w') ∧
           runs w' = runs w) ∧
  (¬ type_conflict df a (evaluation_id a) →
     ∃ df', merge df a = inr df' ∧ same_type_invariant df').
Proof.
  intros Hinv. split.
  - intros Hc. destruct (add_conflict _ _ _ Hc) as (first & Hhd & Hadd).
    assert (first ∈ df ∧ evaluation_id first = evaluation_id a ∧
            name first = name a) as (Hfirst & Hfe & Hfn).
    { destruct (filter _ df) as [|f ex] eqn:Hf; [done|].
      injection Hhd as ->.
      assert (first ∈ filter (λ r, matches_name (evaluation_id a) (name a) r = true) df)
        as Hin by (rewrite Hf; left).
      apply list_elem_of_filter in Hin as [Hm ?].
      by apply matches_name_spec in Hm as [? ?]. }
    exists (get_value_type first). split; [|split; [|split]].
    + destruct Hc as (r & Hr & He & Hn & Ht). intros Heq. apply Ht.
      rewrite <- Heq. apply Hinv; congruence.
    + intros r Hr He Hn. apply Hinv; congruence.
    + done.
    + intros w x rid ev Hx Hget Hdf.
      pose proof (log_assessments_run w (evaluation_id a) (OneObject x) rid)
        as Hrun. cbv zeta in Hrun.
      rewrite get_evaluation_run in Hget. simpl in Hget.
      rewrite Hget in Hrun. simpl in Hrun.
      destruct Hrun as (df0 & Hdf0 & Hrun).
      assert (df0 = df) as -> by congruence.
      rewrite Hx, Hadd in Hrun. eexists. split; [exact Hrun|done].
  - intros Hno.
    assert (type_consistent df a (evaluation_id a)) as Hc
      by (by destruct (consistent_or_conflict df a (evaluation_id a))).
    unfold merge. rewrite (add_consistent _ _ _ Hc).
    eexists. split; [done|]. by apply merged_invariant.
Qed.

(** The pre-check of [log_evaluation]: a batch of objects, or a batch of
    dictionaries, with two value types under one name is rejected before
    anything is asked of the stores. *)
Lemma log_evaluation_rejects_mixed_value_types ins outs iid req tgt l ms rid w :
  (forallb is_dict l = true ∨ existsb is_dict l = false) →
  same_value_type_per_name (map from_dictionary l) = false →
  ∃ msg,
    log_evaluation tm ins outs iid req tgt l ms rid w =
    (inl (MlflowException msg INVALID_PARAMETER_VALUE), w).
Proof.
  intros Hform Hmixed. unfold log_evaluation.
  assert (∀ l', map from_dictionary (map (λ d, AsObject (from_dictionary d)) l')
                = map from_dictionary l') as Hmap.
  { intros l'. rewrite map_map. by apply map_ext. }
  assert (∀ l', existsb is_dict (map (λ d, AsObject (from_dictionary d)) l')
                = false) as Hobj.
  { intros l'. by induction l'. }
  destruct l as [|[d|o] l'].
  - done.
  - destruct Hform as [Hall|Hex]; [|done]. rewrite Hall. cbn [negb].
    unfold mbind at 1, M_bind at 1. cbn [mret M_ret].
    rewrite lift_bind. unfold verify_assessments_have_same_value_type.
    rewrite Hobj, Hmap, Hmixed. by eexists.
  - destruct Hform as [Hall|Hex]; [done|].
    unfold mbind at 1, M_bind at 1. cbn [mret M_ret].
    rewrite lift_bind. unfold verify_assessments_have_same_value_type.
    rewrite Hex, Hmixed. by eexists.
Qed.

(** C5, as amended: a list that mixes dictionaries and objects makes
    [log_assessments] raise ValueError once the fetch of the target
    evaluation has succeeded, with nothing written; and it makes
    [log_evaluation] raise INVALID_PARAMETER_VALUE, before anything is asked
    of the stores, when the first element of the list is a dictionary. *)
Theorem mixed_forms_are_rejected l :
  existsb is_dict l = true →
  forallb is_dict l = false →
  (∀ w eid rid ev,
     (get_evaluation d2e (default (active_run w) rid) eid w).1 = inr ev →
     ∃ tr,
       log_assessments d2e tm eid (Many l) rid w =
         (inl (ValueError all_dictionaries_message), extend w tr) ∧
       Forall (λ ev, is_read ev = true) tr) ∧
  (∀ d rest ins outs iid req tgt ms rid w,
     l = AsDict d :: rest →
     log_evaluation tm ins outs iid req tgt l ms rid w =
     (inl (MlflowException all_dictionaries_message INVALID_PARAMETER_VALUE), w)).
Proof.
  intros Hex Hall. split.
  - intros w eid rid ev Hget.
    pose proof (log_assessments_run w eid (Many l) rid) as Hrun.
    cbv zeta in Hrun. rewrite get_evaluation_run in Hget. simpl in Hget.
    rewrite Hget in Hrun. simpl in Hrun. rewrite Hex, Hall in Hrun.
    simpl in Hrun. eexists. split; [exact Hrun|]. apply outcome_read_only.
  - intros d rest ins outs iid req tgt ms rid w ->.
    unfold log_evaluation. by rewrite Hall.
Qed.

End FacadeProperties.

(** * The facade on concrete runs *)

(** C1: [log_evaluations] called with one evaluation whose assessments of
    the name ["relevance"] are a boolean and a number does not fail: it
    returns the evaluation and has written the three tables, and the
    persisted assessments table holds both value types under one
    [(evaluation_id, name)]. *)
Theorem log_evaluations_persists_mixed_value_types
    (tm : string → AssessmentSource → list AssessmentEntity → list Metric) :
  same_value_type_per_name (assessments mixed_evaluation) = false ∧
  ∃ r w',
    log_evaluations tm [mixed_evaluation] None empty_world = (inr r, w') ∧
    is_Some (evaluations_json (get_run w' "run0")) ∧
    is_Some (metrics_json (get_run w' "run0")) ∧
    assessments_json (get_run w' "run0") =
      Some [_to_entity "evaluation-0" relevance_true;
            _to_entity "evaluation-0" relevance_score] ∧
    ¬ same_type_invariant
        [_to_entity "evaluation-0" relevance_true;
         _to_entity "evaluation-0" relevance_score].
Proof.
  split; [reflexivity|]. eexists _, _. split; [reflexivity|].
  split; [by eexists|]. split; [by eexists|]. split; [reflexivity|].
  intros Hinv.
  specialize (Hinv (_to_entity "evaluation-0" relevance_true)
                (_to_entity "evaluation-0" relevance_score)).
  discriminate Hinv; try reflexivity.
  - left.
  - right. left.
Qed.

(** The counterexample to C3 as stated: a row of the key exists, and the
    engine raises instead of overwriting it. *)
Lemma add_assessment_conflict_counterexample :
  (∃ r, r ∈ [_to_entity "e1" relevance_true] ∧
        same_key "e1" (_to_entity "e1" relevance_rescored) r) ∧
  _add_assessment_to_df [_to_entity "e1" relevance_true]
    (_to_entity "e1" relevance_rescored) "e1" =
  inl (MlflowException
         (value_type_mismatch_message "relevance" VNumeric VBoolean)
         INVALID_PARAMETER_VALUE).
Proof.
  split; [|reflexivity].
  exists (_to_entity "e1" relevance_true). split; [left|done].
Qed.

(** The counterexample to C5 as stated: a batch that mixes a dictionary and
    an object, logged to a run without tables, fails with
    RESOURCE_DOES_NOT_EXIST and not with an invalid-argument error. *)
Lemma mixed_forms_not_found_counterexample :
  existsb is_dict [AsDict relevance_true; AsObject relevance_false] = true ∧
  forallb is_dict [AsDict relevance_true; AsObject relevance_false] = false ∧
  (log_assessments dataframes_to_evaluations_model count_to_metrics
     "evaluation-0" (Many [AsDict relevance_true; AsObject relevance_false])
     None empty_world).1 =
  inl (MlflowException no_evaluations_message RESOURCE_DOES_NOT_EXIST).
Proof. repeat split; reflexivity. Qed.

(** * Instances of the theorems *)

Lemma sample_row_consistent (x : Assessment) :
  value_type_of (assessment_value x) = VBoolean →
  type_consistent [_to_entity "e1" relevance_true] (_to_entity "e1" x) "e1".
Proof.
  intros Hx r Hr _ _. apply list_elem_of_singleton in Hr as ->.
  unfold get_value_type. simpl. by rewrite Hx.
Defined.

Lemma sample_row_invariant :
  same_type_invariant [_to_entity "e1" relevance_true].
Proof.
  intros r1 r2 H1 H2 _ _.
  apply list_elem_of_singleton in H1 as ->.
  by apply list_elem_of_singleton in H2 as ->.
Defined.

Lemma add_assessment_updates_or_appends_witness :
  type_consistent [_to_entity "e1" relevance_true]
    (_to_entity "e1" relevance_revised) "e1" ∧
  ∃ df',
    _add_assessment_to_df [_to_entity "e1" relevance_true]
      (_to_entity "e1" relevance_revised) "e1" = inr df' ∧
    length df' = 1 ∧
    df' !! 0 = Some (_to_entity "e1" relevance_revised).
Proof.
  split; [by apply sample_row_consistent|].
  destruct (add_assessment_updates_or_appends
              [_to_entity "e1" relevance_true]
              (_to_entity "e1" relevance_revised) "e1"
              (sample_row_consistent relevance_revised eq_refl)) as [Hupd _].
  destruct Hupd as (df' & Heq & Hlen & Hrows).
  { exists (_to_entity "e1" relevance_true). split; [left|done]. }
  exists df'. split; [done|]. split; [done|].
  by rewrite (Hrows 0 (_to_entity "e1" relevance_true) eq_refl).
Defined.

Lemma merge_idempotent_witness :
  type_consistent [_to_entity "e1" relevance_true]
    (_to_entity "e1" relevance_false) "e1" ∧
  ∃ df1,
    merge [_to_entity "e1" relevance_true] (_to_entity "e1" relevance_false)
      = inr df1 ∧
    merge df1 (_to_entity "e1" relevance_false) = inr df1.
Proof.
  split; [by apply sample_row_consistent|].
  apply (merge_idempotent [_to_entity "e1" relevance_true]
           (_to_entity "e1" relevance_false)).
  by apply sample_row_consistent.
Defined.

Lemma merge_keeps_value_types_consistent_witness :
  same_type_invariant [_to_entity "e1" relevance_true] ∧
  type_conflict [_to_entity "e1" relevance_true]
    (_to_entity "e1" relevance_score) "e1" ∧
  merge [_to_entity "e1" relevance_true] (_to_entity "e1" relevance_score) =
  inl (MlflowException
         (value_type_mismatch_message "relevance" VNumeric VBoolean)
         INVALID_PARAMETER_VALUE).
Proof.
  assert (type_conflict [_to_entity "e1" relevance_true]
            (_to_entity "e1" relevance_score) "e1") as Hc.
  { exists (_to_entity "e1" relevance_true). split; [left|done]. }
  split; [apply sample_row_invariant|]. split; [exact Hc|].
  destruct (merge_keeps_value_types_consistent
              dataframes_to_evaluations_model count_to_metrics
              [_to_entity "e1" relevance_true]
              (_to_entity "e1" relevance_score) sample_row_invariant)
    as [Hconflict _].
  destruct (Hconflict Hc) as (t0 & _ & Hall & Hmerge & _).
  rewrite Hmerge.
  by rewrite <- (Hall (_to_entity "e1" relevance_true)); [|left|done|done].
Defined.

Lemma mixed_forms_are_rejected_witness :
  existsb is_dict [AsDict relevance_true; AsObject relevance_false] = true ∧
  forallb is_dict [AsDict relevance_true; AsObject relevance_false] = false ∧
  (log_assessments dataframes_to_evaluations_model count_to_metrics
     "evaluation-0" (Many [AsDict relevance_true; AsObject relevance_false])
     None logged_world).1 = inl (ValueError all_dictionaries_message).
Proof.
  split; [reflexivity|]. split; [reflexivity|].
  destruct (mixed_forms_are_rejected
              dataframes_to_evaluations_model count_to_metrics
              [AsDict relevance_true; AsObject relevance_false]
              eq_refl eq_refl) as [Hassess _].
  edestruct (Hassess logged_world "evaluation-0" None) as (tr & Hrun & _).
  { vm_compute. reflexivity. }
  by rewrite Hrun.
Defined.

Lemma get_evaluation_not_found_witness :
  ¬ has_all_tables (get_run empty_world "run0") ∧
  ∃ msg tr,
    get_evaluation dataframes_to_evaluations_model "run0" "evaluation-0"
      empty_world =
    (inl (MlflowException msg RESOURCE_DOES_NOT_EXIST), extend empty_world tr).
Proof.
  assert (¬ has_all_tables (get_run empty_world "run0")) as Hno.
  { intros [[evs Hevs] _]. discriminate Hevs. }
  split; [exact Hno|].
  destruct (get_evaluation_not_found dataframes_to_evaluations_model
              empty_world "run0" "evaluation-0" (or_introl Hno))
    as (msg & tr & Hrun & _).
  by exists msg, tr.
Defined.

Lemma get_evaluation_expects_single_record_witness :
  length (default [] (evaluations_json (get_run duplicated_world "run0"))) = 2 ∧
  (get_evaluation dataframes_to_evaluations_model "run0" "evaluation-0"
     duplicated_world).1 =
  inl (MlflowException (not_single_message "evaluation-0" 2) INTERNAL_ERROR).
Proof.
  split; [reflexivity|].
  edestruct (get_evaluation_expects_single_record
               dataframes_to_evaluations_model duplicated_world "run0"
               "evaluation-0") as [Hmany _].
  - vm_compute. reflexivity.
  - vm_compute. reflexivity.
  - vm_compute. reflexivity.
  - vm_compute. reflexivity.
  - vm_compute. reflexivity.
  - rewrite Hmany; [reflexivity|]. vm_compute. lia.
Defined.

Lemma log_assessments_logs_stats_before_table_witness :
  artifact_store_writable offline_world = false ∧
  ∃ w',
    log_assessments dataframes_to_evaluations_model count_to_metrics
      "evaluation-0" (OneObject relevance_false) None offline_world
      = (inl OSError, w') ∧
    length (run_metrics (get_run w' "run0")) =
      2 + length (run_metrics (get_run offline_world "run0")) ∧
    assessments_json (get_run w' "run0") =
      Some [_to_entity "evaluation-0" relevance_true].
Proof.
  split; [reflexivity|].
  destruct (log_assessments_logs_stats_before_table
              dataframes_to_evaluations_model count_to_metrics offline_world
              "evaluation-0" (OneObject relevance_false) None) as [_ Hfail].
  edestruct (Hfail eq_refl) as (w' & Hrun & _ & Hmetrics & Htable).
  - vm_compute. reflexivity.
  - reflexivity.
  - vm_compute. reflexivity.
  - vm_compute. reflexivity.
  - exists w'. split; [exact Hrun|]. split; [|exact Htable].
    change (default (active_run offline_world) None) with "run0" in Hmetrics.
    rewrite Hmetrics, length_app. vm_compute. reflexivity.
Defined.

Lemma log_assessments_verifies_evaluation_first_witness :
  ¬ has_all_tables (get_run empty_world "run0") ∧
  ∃ msg tr,
    log_assessments dataframes_to_evaluations_model count_to_metrics
      "evaluation-0" (OneObject relevance_false) None empty_world =
    (inl (MlflowException msg RESOURCE_DOES_NOT_EXIST), extend empty_world tr) ∧
    runs (extend empty_world tr) = runs empty_world.
Proof.
  assert (¬ has_all_tables (get_run empty_world "run0")) as Hno.
  { intros [[evs Hevs] _]. discriminate Hevs. }
  split; [exact Hno|].
  destruct (log_assessments_verifies_evaluation_first
              dataframes_to_evaluations_model count_to_metrics empty_world
              "evaluation-0" (OneObject relevance_false) None)
    as (r1 & tr1 & _ & _ & _ & Hnotfound).
  destruct (Hnotfound (or_introl Hno)) as (msg & Hrun).
  exists msg, tr1. split; [exact Hrun|reflexivity].
Defined.

Lemma stats_once_per_touched_name_witness :
  ∃ tr,
    trace logged_world = trace empty_world ++ tr ∧
    NoDup (stat_calls tr) ∧
    "relevance" ∈ stat_calls tr ∧
    length (logged_batches tr) = 1.
Proof.
  destruct (stats_once_per_touched_name
              dataframes_to_evaluations_model count_to_metrics) as [Hlog _].
  edestruct (Hlog [sample_evaluation] None empty_world) as (tr & Ht & Hnd & Hin & Hb).
  { vm_compute. reflexivity. }
  exists tr. split; [exact Ht|]. split; [exact Hnd|]. split.
  - apply Hin. vm_compute. left.
  - rewrite Hb.
    assert (stat_calls tr = ["relevance"]) as ->; [|reflexivity].
    change (trace empty_world) with (@nil Event) in Ht. simpl in Ht.
    rewrite <- Ht. reflexivity.
Defined.

(** * Further properties of the merge engine *)

Section MergeEngineBatches.

Implicit Types (df : DataFrame) (a b r : AssessmentEntity) (eid : string).

Lemma add_ok_inv df a eid df' :
  _add_assessment_to_df df a eid = inr df' →
  type_consistent df a eid ∧
  df' = if existsb (matches_key eid (name a) (source a)) df
        then updated df a eid else df ++ [a].
Proof.
  intros Hadd. destruct (consistent_or_conflict df a eid) as [Hc|Hc].
  - split; [done|]. rewrite (add_consistent _ _ _ Hc) in Hadd. congruence.
  - destruct (add_conflict _ _ _ Hc) as (first & _ & Hraise). congruence.
Qed.

Lemma add_raise_inv df a eid e :
  _add_assessment_to_df df a eid = inl e →
  ∃ first,
    head (filter (λ r, matches_name eid (name a) r = true) df) = Some first ∧
    e = MlflowException
          (value_type_mismatch_message (name a) (get_value_type a)
             (get_value_type first))
          INVALID_PARAMETER_VALUE.
Proof.
  intros Hadd. destruct (consistent_or_conflict df a eid) as [Hc|Hc].
  - rewrite (add_consistent _ _ _ Hc) in Hadd. congruence.
  - destruct (add_conflict _ _ _ Hc) as (first & Hhd & Hraise).
    exists first. split; [done|]. congruence.
Qed.

Lemma no_key_row df a eid r :
  existsb (matches_key eid (name a) (source a)) df = false →
  r ∈ df → ¬ same_key eid a r.
Proof.
  intros Hno Hr Hk.
  assert (existsb (matches_key eid (name a) (source a)) df = true) as Ht
    by (apply existsb_matches_key; eauto).
  congruence.
Qed.

Lemma merged_rows df a r :
  r ∈ (if existsb (matches_key (evaluation_id a) (name a) (source a)) df
       then updated df a (evaluation_id a) else df ++ [a]) →
  r ∈ df ∧ ¬ same_key (evaluation_id a) a r ∨ r = a.
Proof.
  destruct (existsb _ df) eqn:Hk; intros Hr.
  - unfold updated in Hr. apply list_elem_of_fmap in Hr as (r0 & -> & Hr0).
    destruct (matches_key _ _ _ r0) eqn:Hm.
    + right. apply restamp_self.
    + left. split; [done|]. rewrite <- matches_key_spec. congruence.
  - apply elem_of_app in Hr as [Hr|Hr].
    + left. split; [done|]. by eapply no_key_row.
    + right. by apply list_elem_of_singleton in Hr.
Qed.

Lemma merged_contains df a :
  a ∈ (if existsb (matches_key (evaluation_id a) (name a) (source a)) df
       then updated df a (evaluation_id a) else df ++ [a]).
Proof.
  destruct (existsb _ df) eqn:Hk.
  - apply existsb_matches_key in Hk as (r & Hr & Hs).
    unfold updated. apply list_elem_of_fmap. exists r. split; [|done].
    by rewrite (proj2 (matches_key_spec _ _ _) Hs), restamp_self.
  - apply elem_of_app. right. by left.
Qed.

(** The only exception the engine raises is the value-type mismatch: it
    carries INVALID_PARAMETER_VALUE, and its message gives the value type of
    the assessment and the value type of the first stored row of the same
    [(evaluation_id, name)]; some stored row of that name has a value type
    other than the assessment's. *)
Theorem add_assessment_raises_only_type_mismatch df a eid e :
  _add_assessment_to_df df a eid = inl e →
  type_conflict df a eid ∧
  ∃ first,
    head (filter (λ r, matches_name eid (name a) r = true) df) = Some first ∧
    first ∈ df ∧ evaluation_id first = eid ∧ name first = name a ∧
    e = MlflowException
          (value_type_mismatch_message (name a) (get_value_type a)
             (get_value_type first))
          INVALID_PARAMETER_VALUE.
Proof.
  intros Hadd. split.
  - destruct (consistent_or_conflict df a eid) as [Hc|Hc]; [|done].
    rewrite (add_consistent _ _ _ Hc) in Hadd. congruence.
  - destruct (add_raise_inv _ _ _ _ Hadd) as (first & Hhd & ->).
    exists first. split; [done|].
    assert (first ∈ filter (λ r, matches_name eid (name a) r = true) df) as Hin.
    { destruct (filter _ df) as [|f ex]; [done|]. injection Hhd as ->. left. }
    apply list_elem_of_filter in Hin as [Hm Hin].
    apply matches_name_spec in Hm as [? ?]. done.
Qed.

(** The engine keeps the upsert key unique: merging an assessment for the
    evaluation it is stamped with into a table with at most one row per
    [(evaluation_id, name, source)] returns such a table. *)
Theorem merge_keeps_keys_unique df a df' :
  unique_keys df → merge df a = inr df' → unique_keys df'.
Proof.
  unfold unique_keys, merge. intros Hnd Hadd.
  apply add_ok_inv in Hadd as [_ ->].
  destruct (existsb _ df) eqn:Hk.
  - replace (map key_of (updated df a (evaluation_id a))) with (map key_of df);
      [done|].
    unfold updated. rewrite map_map. apply map_ext_in. intros r _.
    destruct (matches_key _ _ _ r) eqn:Hm; [|done].
    apply matches_key_spec in Hm as (He & Hn & Hs).
    unfold key_of. simpl. by rewrite He, Hn, Hs.
  - rewrite map_app. apply NoDup_app. split; [done|]. split.
    + intros k Hin Hk'. apply list_elem_of_singleton in Hk' as ->.
      apply list_elem_of_fmap in Hin as (r & Hkey & Hr).
      apply (no_key_row _ _ _ _ Hk Hr).
      unfold key_of in Hkey. injection Hkey as He Hn Hs. by unfold same_key.
    + apply NoDup_singleton.
Qed.

(** The last write under a key wins: when two assessments share
    [(evaluation_id, name, source)] and the value type, merging the first
    and then the second yields what merging the second alone yields. *)
Theorem merge_last_write_wins df a b d1 :
  evaluation_id a = evaluation_id b → name a = name b → source a = source b →
  get_value_type a = get_value_type b →
  merge df a = inr d1 →
  merge d1 b = merge df b.
Proof.
  unfold merge. intros He Hn Hs Ht Hadd.
  apply add_ok_inv in Hadd as [Hca ->].
  assert (type_consistent df b (evaluation_id b)) as Hcb.
  { intros r Hr Hre Hrn. rewrite <- Ht. apply Hca; congruence. }
  assert (type_consistent
            (if existsb (matches_key (evaluation_id a) (name a) (source a)) df
             then updated df a (evaluation_id a) else df ++ [a])
            b (evaluation_id b)) as Hc1.
  { intros r Hr Hre Hrn. rewrite <- Ht.
    apply (merged_consistent _ _ Hca); [done|congruence|congruence]. }
  rewrite (add_consistent _ _ _ Hc1), (add_consistent _ _ _ Hcb). f_equal.
  rewrite <- He, <- Hn, <- Hs.
  destruct (existsb (matches_key (evaluation_id a) (name a) (source a)) df)
    eqn:Hk.
  - assert (existsb (matches_key (evaluation_id a) (name a) (source a))
              (updated df a (evaluation_id a)) = true) as ->.
    { apply existsb_exists. exists a. split; [|apply matches_key_self].
      apply list_elem_of_In. pose proof (merged_contains df a) as Hin.
      by rewrite Hk in Hin. }
    unfold updated. rewrite <- Hn, <- Hs, map_map. apply map_ext. intros r.
    cbv beta.
    destruct (matches_key (evaluation_id a) (name a) (source a) r) eqn:Hm.
    + by rewrite matches_key_restamp.
    + by rewrite Hm.
  - assert (existsb (matches_key (evaluation_id a) (name a) (source a))
              (df ++ [a]) = true) as ->.
    { rewrite existsb_app. simpl. rewrite matches_key_self.
      by rewrite orb_true_r. }
    unfold updated. rewrite <- Hn, <- Hs, map_app. simpl.
    rewrite matches_key_self.
    assert (map (λ r, if matches_key (evaluation_id a) (name a) (source a) r
                      then restamp b (evaluation_id a) else r) df = df) as ->.
    { rewrite <- (map_id df) at 2. apply map_ext_in.
      intros r Hr. destruct (matches_key _ _ _ r) eqn:Hm; [|done].
      exfalso. apply (no_key_row _ _ _ r Hk); [by apply list_elem_of_In|].
      by apply matches_key_spec. }
    f_equal. f_equal. rewrite He. apply restamp_self.
Qed.

(** Reading back what was merged: after a successful merge the assessment
    is a row of the table, and every row of its
    [(evaluation_id, name, source)] is that assessment. *)
Theorem merge_then_lookup df a df' :
  merge df a = inr df' →
  a ∈ df' ∧ ∀ r, r ∈ df' → same_key (evaluation_id a) a r → r = a.
Proof.
  unfold merge. intros Hadd. apply add_ok_inv in Hadd as [_ ->]. split.
  - apply merged_contains.
  - intros r Hr Hk. by destruct (merged_rows _ _ _ Hr) as [[_ Hno]| ->].
Qed.

Lemma add_step_rows df a eid d1 :
  _add_assessment_to_df df a eid = inr d1 →
  (length df ≤ length d1 ≤ S (length df))%nat ∧
  ∀ i r, df !! i = Some r → ¬ same_key eid a r → d1 !! i = Some r.
Proof.
  intros Hadd. apply add_ok_inv in Hadd as [_ ->].
  destruct (existsb _ df).
  - rewrite length_updated. split; [lia|]. intros i r Hi Hno.
    rewrite (lookup_updated _ _ _ _ _ Hi). by rewrite decide_False.
  - rewrite length_app. simpl. split; [lia|]. intros i r Hi _.
    by apply lookup_app_l_Some.
Qed.

(** A batch leaves the rest of the table alone: when the loop of
    [log_assessments] over the engine returns a table, that table has at
    least the rows it started with and at most one more per assessment, and
    every row of another evaluation, or of a name that is not in the batch,
    is where it was, unchanged. *)
Theorem add_all_keeps_other_rows df (l : list Assessment) eid df' :
  add_all df (map (_to_entity eid) l) eid = inr df' →
  (length df ≤ length df' ≤ length df + length l)%nat ∧
  ∀ i r, df !! i = Some r →
    evaluation_id r ≠ eid ∨ name r ∉ map assessment_name l →
    df' !! i = Some r.
Proof.
  revert df. induction l as [|x l IH]; intros df Hall; simpl in Hall.
  - injection Hall as <-. split; [lia|done].
  - destruct (_add_assessment_to_df df (_to_entity eid x) eid) as [e|d1] eqn:Hadd;
      [done|].
    destruct (add_step_rows _ _ _ _ Hadd) as [Hlen Hrows].
    destruct (IH _ Hall) as [Hlen' Hrows']. split; [simpl; lia|].
    intros i r Hi Hother. apply Hrows'.
    + apply Hrows; [done|]. intros (He & Hn & _). simpl in Hn.
      destruct Hother as [?|Hnot]; [done|]. apply Hnot. rewrite Hn. left.
    + destruct Hother as [?|Hnot]; [by left|]. right. intros Hin.
      apply Hnot. by right.
Qed.

(** A batch keeps the value-type invariant: when the table read satisfies
    it and the loop of [log_assessments] over the engine returns a table,
    that table satisfies it. *)
Theorem add_all_keeps_value_types_consistent df (l : list Assessment) eid df' :
  same_type_invariant df →
  add_all df (map (_to_entity eid) l) eid = inr df' →
  same_type_invariant df'.
Proof.
  revert df. induction l as [|x l IH]; intros df Hinv Hall; simpl in Hall.
  - by injection Hall as <-.
  - destruct (_add_assessment_to_df df (_to_entity eid x) eid) as [e|d1] eqn:Hadd;
      [done|].
    apply add_ok_inv in Hadd as [Hc ->].
    apply (IH _ (merged_invariant df (_to_entity eid x) Hinv Hc) Hall).
Qed.

Lemma add_step_keeps_typed_row df a eid d1 n t :
  _add_assessment_to_df df a eid = inr d1 → evaluation_id a = eid →
  (∃ r, r ∈ df ∧ evaluation_id r = eid ∧ name r = n ∧ get_value_type r = t) →
  ∃ r, r ∈ d1 ∧ evaluation_id r = eid ∧ name r = n ∧ get_value_type r = t.
Proof.
  intros Hadd Heid (r & Hr & He & Hn & Ht).
  apply add_ok_inv in Hadd as [Hc ->]. subst eid.
  destruct (existsb _ df).
  - destruct (matches_key (evaluation_id a) (name a) (source a) r) eqn:Hm.
    + exists (restamp a (evaluation_id a)).
      pose proof (proj1 (matches_key_spec _ _ _) Hm) as (_ & Hna & _).
      split; [|split; [done|split; [simpl; congruence|]]].
      * unfold updated. apply list_elem_of_fmap. exists r. by rewrite Hm.
      * rewrite <- Ht. symmetry. apply (Hc r Hr He Hna).
    + exists r. split; [|done]. unfold updated. apply list_elem_of_fmap.
      exists r. by rewrite Hm.
  - exists r. split; [|done]. apply elem_of_app. by left.
Qed.

Lemma add_all_rejects_other_type df (l : list Assessment) eid n t :
  (∃ r, r ∈ df ∧ evaluation_id r = eid ∧ name r = n ∧ get_value_type r = t) →
  (∃ y, y ∈ l ∧ assessment_name y = n ∧ value_type_of (assessment_value y) ≠ t) →
  ∃ msg, add_all df (map (_to_entity eid) l) eid =
         inl (MlflowException msg INVALID_PARAMETER_VALUE).
Proof.
  revert df. induction l as [|x l IH]; intros df Hrow (y & Hy & Hyn & Hyt).
  - by apply elem_of_nil in Hy.
  - simpl.
    destruct (_add_assessment_to_df df (_to_entity eid x) eid) as [e|d1] eqn:Hadd.
    + destruct (add_raise_inv _ _ _ _ Hadd) as (first & _ & ->). by eexists.
    + apply IH.
      * by apply (add_step_keeps_typed_row _ _ _ _ _ _ Hadd).
      * apply elem_of_cons in Hy as [->|Hy]; [|by exists y].
        exfalso. apply add_ok_inv in Hadd as [Hc _].
        destruct Hrow as (r & Hr & He & Hn & Ht).
        apply Hyt. rewrite <- Ht. symmetry. apply (Hc r Hr He).
        simpl. congruence.
Qed.

(** [log_assessments] has no pre-check of its own, yet a batch whose
    members disagree on the value type of one name never goes through: the
    loop over the engine raises INVALID_PARAMETER_VALUE, whatever the table
    holds. *)
Theorem add_all_rejects_mixed_batch df (l : list Assessment) eid x y :
  x ∈ l → y ∈ l →
  assessment_name x = assessment_name y →
  value_type_of (assessment_value x) ≠ value_type_of (assessment_value y) →
  ∃ msg, add_all df (map (_to_entity eid) l) eid =
         inl (MlflowException msg INVALID_PARAMETER_VALUE).
Proof.
  revert df. induction l as [|c l IH]; intros df Hx Hy Hn Ht.
  - by apply elem_of_nil in Hx.
  - simpl.
    destruct (_add_assessment_to_df df (_to_entity eid c) eid) as [e|d1] eqn:Hadd.
    { destruct (add_raise_inv _ _ _ _ Hadd) as (first & _ & ->). by eexists. }
    assert (∃ r, r ∈ d1 ∧ evaluation_id r = eid ∧ name r = assessment_name c ∧
                 get_value_type r = value_type_of (assessment_value c)) as Hrow.
    { exists (_to_entity eid c). split; [|done].
      apply add_ok_inv in Hadd as [_ ->]. apply (merged_contains df (_to_entity eid c)). }
    apply elem_of_cons in Hx as [->|Hx], Hy as [->|Hy].
    + done.
    + apply (add_all_rejects_other_type _ _ _ _ _ Hrow).
      exists y. split; [done|]. split; [done|]. by intros Heq; apply Ht.
    + apply (add_all_rejects_other_type _ _ _ _ _ Hrow).
      exists x. by split; [|split].
    + by apply IH.
Qed.

End MergeEngineBatches.

(** * Further properties of the facade *)

Section FacadeEffects.

Context (d2e : list EvaluationRow → list MetricRow → DataFrame →
               result (list EvaluationEntity)).
Context (tm : string → AssessmentSource → list AssessmentEntity → list Metric).

Implicit Types (w : World) (tr : list Event) (run eid : string).

Lemma touches_only_extend run w tr : touches_only_assessments run w (extend w tr).
Proof. by unfold touches_only_assessments. Qed.

Lemma touches_only_logged run bs evs w w3 :
  logged run bs evs w w3 → touches_only_assessments run w w3.
Proof.
  unfold logged. intros (Hr & Ho & _ & Ha & _ & Hu & _).
  unfold touches_only_assessments. by rewrite Hr.
Qed.

Lemma touches_only_write run df w w3 :
  touches_only_assessments run w w3 →
  touches_only_assessments run w (write_assessments_json run df w3).2.
Proof.
  unfold touches_only_assessments at 1. intros (He & Hm & Ho & Hu & Ha).
  rewrite write_assessments_json_run.
  destruct (artifact_store_writable w3);
    [|by unfold touches_only_assessments].
  unfold touches_only_assessments. cbn [snd].
  assert (get_run (emit (ELogArtifact run "_assessments.json")
            (put_run run
               {| evaluations_json := evaluations_json (get_run w3 run);
                  metrics_json := metrics_json (get_run w3 run);
                  assessments_json := Some df;
                  run_metrics := run_metrics (get_run w3 run) |} w3)) run =
          {| evaluations_json := evaluations_json (get_run w3 run);
             metrics_json := metrics_json (get_run w3 run);
             assessments_json := Some df;
             run_metrics := run_metrics (get_run w3 run) |}) as ->.
  { unfold get_run at 1. simpl. by rewrite lookup_insert_eq. }
  simpl. split; [done|]. split; [done|]. split; [|done].
  intros other Hne. rewrite lookup_insert_ne; [|done]. by apply Ho.
Qed.

(** Whatever its outcome, [log_assessments] touches at most the assessments
    table and the metric series of its run: the evaluations table, the
    metrics table, every other run and the identifier supply are left as
    they were. *)
Theorem log_assessments_touches_only_assessments w eid args rid :
  touches_only_assessments (default (active_run w) rid) w
    (log_assessments d2e tm eid args rid w).2.
Proof.
  pose proof (log_assessments_run d2e tm w eid args rid) as Hrun.
  cbv zeta in Hrun.
  set (run := default (active_run w) rid) in *.
  destruct ((get_evaluation_outcome d2e (get_run w run) run eid).1) as [e|ev];
    [rewrite Hrun; apply touches_only_extend|].
  destruct (normalize_assessments args) as [e|l];
    [rewrite Hrun; apply touches_only_extend|].
  destruct Hrun as (df0 & _ & Hrun).
  destruct (add_all df0 _ eid) as [e|df1];
    [rewrite Hrun; apply touches_only_extend|].
  destruct Hrun as (w3 & Hl & ->).
  apply touches_only_write. by eapply touches_only_logged.
Qed.

(** What a successful [log_assessments] read, merged and persisted. *)
Lemma log_assessments_ok_inv w eid args rid w' :
  log_assessments d2e tm eid args rid w = (inr (), w') →
  ∃ ev l df0 df1,
    (get_evaluation d2e (default (active_run w) rid) eid w).1 = inr ev ∧
    normalize_assessments args = inr l ∧
    assessments_json (get_run w (default (active_run w) rid)) = Some df0 ∧
    add_all df0 (map (_to_entity eid) l) eid = inr df1 ∧
    assessments_json (get_run w' (default (active_run w) rid)) = Some df1.
Proof.
  intros Hok.
  pose proof (log_assessments_run d2e tm w eid args rid) as Hrun.
  cbv zeta in Hrun. rewrite get_evaluation_run. simpl.
  set (run := default (active_run w) rid) in *.
  destruct ((get_evaluation_outcome d2e (get_run w run) run eid).1) as [e|ev];
    [congruence|].
  destruct (normalize_assessments args) as [e|l]; [congruence|].
  destruct Hrun as (df0 & Hdf0 & Hrun).
  destruct (add_all df0 _ eid) as [e|df1] eqn:Hadd; [congruence|].
  destruct Hrun as (w3 & Hl & Hrun).
  rewrite Hrun, write_assessments_json_run in Hok.
  destruct (artifact_store_writable w3); [|congruence].
  injection Hok as <-. exists ev, l, df0, df1.
  repeat split; try done.
  unfold get_run at 1. simpl. by rewrite lookup_insert_eq.
Qed.

Lemma add_all_keeps_keys_unique df (l : list Assessment) eid df' :
  unique_keys df →
  add_all df (map (_to_entity eid) l) eid = inr df' →
  unique_keys df'.
Proof.
  revert df. induction l as [|x l IH]; intros df Hk Hall; simpl in Hall.
  - by injection Hall as <-.
  - destruct (_add_assessment_to_df df (_to_entity eid x) eid) as [e|d1] eqn:Hadd;
      [done|].
    apply (IH d1); [|done].
    by apply (merge_keeps_keys_unique df (_to_entity eid x) d1).
Qed.

(** [log_assessments] keeps the persisted assessments table well formed:
    when the table it reads has one value type per [(evaluation_id, name)]
    and at most one row per [(evaluation_id, name, source)], the table a
    successful call persists has both properties. *)
Theorem log_assessments_keeps_table_well_formed w eid args rid w' df0 :
  assessments_json (get_run w (default (active_run w) rid)) = Some df0 →
  same_type_invariant df0 → unique_keys df0 →
  log_assessments d2e tm eid args rid w = (inr (), w') →
  ∃ df1,
    assessments_json (get_run w' (default (active_run w) rid)) = Some df1 ∧
    same_type_invariant df1 ∧ unique_keys df1.
Proof.
  intros Hdf0 Hinv Hkeys Hok.
  destruct (log_assessments_ok_inv _ _ _ _ _ Hok)
    as (ev & l & df0' & df1 & _ & _ & Hdf0' & Hadd & Hdf1).
  assert (df0' = df0) as -> by congruence.
  exists df1. split; [done|]. split.
  - by apply (add_all_keeps_value_types_consistent df0 l eid).
  - by apply (add_all_keeps_keys_unique df0 l eid).
Qed.

(** [log_assessments] runs no pre-check on its batch, yet a batch in which
    two assessments of one name have different value types is never
    persisted: once the evaluation is found the call raises
    INVALID_PARAMETER_VALUE, and every table and metric series is as it
    was. *)
Theorem log_assessments_rejects_mixed_batch w eid args rid ev l x y :
  (get_evaluation d2e (default (active_run w) rid) eid w).1 = inr ev →
  normalize_assessments args = inr l →
  x ∈ l → y ∈ l →
  assessment_name x = assessment_name y →
  value_type_of (assessment_value x) ≠ value_type_of (assessment_value y) →
  ∃ msg w',
    log_assessments d2e tm eid args rid w =
      (inl (MlflowException msg INVALID_PARAMETER_VALUE), w') ∧
    runs w' = runs w.
Proof.
  intros Hget Hnorm Hx Hy Hn Ht.
  pose proof Hget as Hget'. rewrite get_evaluation_run in Hget'. simpl in Hget'.
  destruct (outcome_ok_tables d2e _ _ _ _ Hget') as (_ & _ & df0 & _ & _ & Hdf0).
  destruct (add_all_rejects_mixed_batch df0 l eid x y Hx Hy Hn Ht) as (msg & Hadd).
  destruct (log_assessments_failed_merge_preserves_store d2e tm
              w eid args rid ev l df0 _ Hget Hnorm Hdf0 Hadd) as (w' & Hrun & Hruns).
  by exists msg, w'.
Qed.

Lemma touched_names_nil : touched_names [] = [].
Proof. unfold touched_names. simpl. apply elements_empty. Qed.

(** An empty batch is a no-op on what is persisted: when the evaluation is
    found and the artifact store accepts the write, [log_assessments] with an
    empty list returns, logs no metric and leaves every run as it was (the
    assessments table is written back as it was read). *)
Theorem log_assessments_empty_batch w eid rid ev :
  (get_evaluation d2e (default (active_run w) rid) eid w).1 = inr ev →
  artifact_store_writable w = true →
  ∃ w',
    log_assessments d2e tm eid (Many []) rid w = (inr (), w') ∧
    runs w' = runs w ∧
    logged_batches (drop (length (trace w)) (trace w')) = [].
Proof.
  intros Hget Hw.
  pose proof (log_assessments_run d2e tm w eid (Many []) rid) as Hrun.
  cbv zeta in Hrun. rewrite get_evaluation_run in Hget. simpl in Hget.
  set (run := default (active_run w) rid) in *.
  rewrite Hget in Hrun. simpl in Hrun.
  destruct Hrun as (df0 & Hdf0 & w3 & Hl & Hrun).
  rewrite touched_names_nil in Hl.
  destruct Hl as (Hr3 & Ho3 & Ht3 & _ & _ & _ & _ & Hw3).
  rewrite add_batches_nil in Hr3.
  rewrite Hrun, write_assessments_json_run, Hw3, Hw.
  eexists. split; [done|]. split.
  - simpl. apply map_eq. intros k. destruct (decide (k = run)) as [->|Hne].
    + rewrite lookup_insert_eq, Hr3.
      unfold get_run in *. destruct (runs w !! run) as [r|] eqn:Hlook.
      * simpl in *. f_equal. destruct r. simpl in *. by rewrite Hdf0.
      * simpl in Hdf0. done.
    + rewrite lookup_insert_ne; [|done]. by apply Ho3.
  - simpl. rewrite Ht3, <- app_assoc, drop_app_length.
    unfold stats_events. simpl. rewrite app_nil_r.
    rewrite !logged_batches_app. simpl. rewrite app_nil_r.
    assert (∀ tr, Forall (λ ev, is_read ev = true) tr →
                  logged_batches tr = []) as Hnone.
    { induction 1 as [|e tr He _ IH]; [done|].
      unfold logged_batches in *. simpl. by destruct e. }
    rewrite Hnone; [done|]. apply outcome_read_only.
Qed.

(** [get_evaluation] is a pure read: whatever it returns, the world after
    the call differs only by the requests observed, all of them listings,
    downloads or the decoding; and asking again returns the same result. *)
Theorem get_evaluation_is_read_only w run eid :
  ∃ tr,
    (get_evaluation d2e run eid w).2 = extend w tr ∧
    Forall (λ ev, is_read ev = true) tr ∧
    (get_evaluation d2e run eid (extend w tr)).1 = (get_evaluation d2e run eid w).1.
Proof.
  exists (get_evaluation_outcome d2e (get_run w run) run eid).2.
  rewrite !get_evaluation_run. simpl. split; [done|]. split; [|done].
  apply outcome_read_only.
Qed.

(** [_contains_evaluation_artifacts] answers whether the run holds the three
    tables; its conjunction stops at the first table that is missing, so it
    lists the artifacts once, twice or three times, and three times exactly
    when the evaluations and the metrics tables exist. *)
Theorem contains_evaluation_artifacts_spec w run :
  ∃ b k,
    _contains_evaluation_artifacts run w =
      (inr b, extend w (replicate k (EListArtifacts run))) ∧
    (b = true ↔ has_all_tables (get_run w run)) ∧
    (1 ≤ k ≤ 3)%nat ∧
    (k = 3 ↔ is_Some (evaluations_json (get_run w run)) ∧
             is_Some (metrics_json (get_run w run))).
Proof.
  exists (has_all_tables_b (get_run w run)), (listing_count (get_run w run)).
  split; [|split; [|split]].
  - rewrite <- (extend_nil w) at 1. apply (contains_step w []).
  - unfold has_all_tables_b, has_all_tables.
    rewrite !andb_true_iff, !bool_decide_eq_true. done.
  - unfold listing_count.
    destruct (evaluations_json (get_run w run)), (metrics_json (get_run w run));
      lia.
  - unfold listing_count.
    destruct (evaluations_json (get_run w run)), (metrics_json (get_run w run));
      split; try done; try (by intros [[? ?] [? ?]]);
      by intros; split; eexists.
Qed.

Lemma get_run_put run r e w : get_run (emit e (put_run run r w)) run = r.
Proof. unfold get_run. simpl. by rewrite lookup_insert_eq. Qed.

Lemma log_table_inv run path upd w w' :
  log_table run path upd w = (inr (), w') →
  artifact_store_writable w = true ∧
  w' = emit (ELogTable run path) (put_run run (upd (get_run w run)) w).
Proof.
  unfold log_table. destruct (artifact_store_writable w); [|done].
  by intros [= <-].
Qed.

(** What a successful [log_evaluations] leaves behind. *)
Lemma log_evaluations_effect evaluations rid w r w' :
  log_evaluations tm evaluations rid w = (inr r, w') →
  let run := default (active_run w) rid in
  let df := concat (map entity_assessments r) in
  r = assign_ids run (entropy w) (uuid_count w) evaluations ∧
  evaluations_json (get_run w' run) =
    Some (default [] (evaluations_json (get_run w run)) ++ map evaluation_row r) ∧
  is_Some (metrics_json (get_run w' run)) ∧
  assessments_json (get_run w' run) =
    Some (default [] (assessments_json (get_run w run)) ++ df) ∧
  uuid_count w' = (length evaluations + uuid_count w)%nat.
Proof.
  intros Hok run df. unfold log_evaluations in Hok.
  apply bind_inv_ok in Hok as (run' & w0 & Hres & Hok).
  injection Hres as <- <-. fold run in Hok.
  apply bind_inv_ok in Hok as (es & w1 & Hes & Hok).
  rewrite mapM_assign in Hes. injection Hes as <- <-.
  unfold evaluations_to_dataframes in Hok. cbv beta iota zeta in Hok.
  apply bind_inv_ok in Hok as ([] & w2 & H1 & Hok).
  apply bind_inv_ok in Hok as ([] & w3 & H2 & Hok).
  apply bind_inv_ok in Hok as ([] & w4 & H3 & Hok).
  apply bind_inv_ok in Hok as ([] & w5 & H4 & Hok).
  injection Hok as <- <-.
  apply log_table_inv in H1 as [_ ->]. apply log_table_inv in H2 as [_ ->].
  apply log_table_inv in H3 as [_ ->].
  match type of H4 with
  | _update_assessments_stats _ _ ?d ?ns ?w4 = _ =>
      destruct (update_stats_logged tm run d ns w4) as (w5' & Hu & Hl)
  end.
  rewrite Hu in H4. injection H4 as <-.
  destruct Hl as (Hr & _ & _ & _ & _ & Hc & _).
  split; [done|]. rewrite Hr, Hc. rewrite !get_run_put. simpl.
  change (get_run (advance w (length evaluations)) run) with (get_run w run).
  split; [done|]. split; [by eexists|]. by split.
Qed.

Lemma assign_ids_length run supply k l : length (assign_ids run supply k l) = length l.
Proof. revert k. induction l as [|e l IH]; intros k; simpl; [done|]. by rewrite IH. Qed.

Lemma assign_ids_ids run supply k l :
  map entity_evaluation_id (assign_ids run supply k l) = map supply (seq k (length l)).
Proof. revert k. induction l as [|e l IH]; intros k; simpl; [done|]. by rewrite IH. Qed.

Lemma assign_ids_fields run supply k l :
  Forall2 (λ ev e,
      entity_run_id e = run ∧
      entity_inputs e = inputs ev ∧ entity_outputs e = outputs ev ∧
      entity_targets e = targets ev ∧ entity_metrics e = metrics ev ∧
      entity_assessments e =
        map (_to_entity (entity_evaluation_id e)) (assessments ev))
    l (assign_ids run supply k l).
Proof.
  revert k. induction l as [|e l IH]; intros k; simpl; constructor; [done|].
  apply IH.
Qed.

(** [log_evaluations] returns its evaluations in order, one entity each,
    stamped with the run and with the next identifiers of the supply: the
    ids are the draws numbered from the counter on, the counter advances by
    the size of the batch, every assessment carries the id of its
    evaluation, and the ids are pairwise distinct when the supply never
    repeats. *)
Theorem log_evaluations_assigns_fresh_ids evaluations rid w r w' :
  log_evaluations tm evaluations rid w = (inr r, w') →
  length r = length evaluations ∧
  map entity_evaluation_id r =
    map (entropy w) (seq (uuid_count w) (length evaluations)) ∧
  uuid_count w' = (length evaluations + uuid_count w)%nat ∧
  Forall2 (λ ev e,
      entity_run_id e = default (active_run w) rid ∧
      entity_inputs e = inputs ev ∧ entity_outputs e = outputs ev ∧
      entity_targets e = targets ev ∧ entity_metrics e = metrics ev ∧
      entity_assessments e =
        map (_to_entity (entity_evaluation_id e)) (assessments ev))
    evaluations r ∧
  ((∀ i j, entropy w i = entropy w j → i = j) →
   NoDup (map entity_evaluation_id r)).
Proof.
  intros Hok.
  destruct (log_evaluations_effect _ _ _ _ _ Hok) as (-> & _ & _ & _ & Hc).
  split; [apply assign_ids_length|]. split; [apply assign_ids_ids|].
  split; [done|]. split; [apply assign_ids_fields|].
  intros Hinj. rewrite assign_ids_ids. apply NoDup_fmap_2; [|apply NoDup_seq].
  intros i j. apply Hinj.
Qed.

Lemma elem_of_assign_ids_row run supply k l e :
  e ∈ assign_ids run supply k l →
  evaluation_row e ∈ map evaluation_row (assign_ids run supply k l).
Proof. intros He. apply list_elem_of_fmap. by exists e. Qed.

(** What [log_evaluations] logged can be fetched: after a successful call
    the run holds the three tables, and for every entity returned
    [get_evaluation] on its id passes both existence checks and reaches the
    decoder. *)
Theorem log_evaluations_then_get_evaluation evaluations rid w r w' e :
  log_evaluations tm evaluations rid w = (inr r, w') →
  e ∈ r →
  has_all_tables (get_run w' (default (active_run w) rid)) ∧
  has_evaluation_row (get_run w' (default (active_run w) rid))
    (entity_evaluation_id e) ∧
  ∃ tr,
    (get_evaluation d2e (default (active_run w) rid)
       (entity_evaluation_id e) w').2 = extend w' tr ∧
    EReconstruct ∈ tr.
Proof.
  intros Hok He.
  destruct (log_evaluations_effect _ _ _ _ _ Hok) as (Hr & Hev & Hme & Has & _).
  set (run := default (active_run w) rid) in *.
  assert (has_evaluation_row (get_run w' run) (entity_evaluation_id e)) as Hrow.
  { eexists _, (evaluation_row e). split; [exact Hev|]. split; [|done].
    apply elem_of_app. right. apply list_elem_of_fmap. by exists e. }
  split; [|split; [done|]].
  { unfold has_all_tables. rewrite Hev, Has. by repeat split. }
  rewrite get_evaluation_run. simpl. eexists. split; [done|].
  unfold get_evaluation_outcome. rewrite Hev, Has.
  destruct Hme as [mes ->].
  destruct (filter _ _) as [|row rows] eqn:Hf.
  - exfalso. destruct Hrow as (rows' & row' & Hrows' & Hin & Hid).
    rewrite Hev in Hrows'. injection Hrows' as <-.
    assert (row' ∈ filter (λ r0, row_evaluation_id r0 = entity_evaluation_id e)
                      (default [] (evaluations_json (get_run w run)) ++
                       map evaluation_row r)) as Hin'
      by (by apply list_elem_of_filter).
    rewrite Hf in Hin'. by apply elem_of_nil in Hin'.
  - simpl. apply elem_of_app. right. do 3 right. left.
Qed.

(** [log_evaluations] only writes, and in a fixed order: the evaluations
    table, the metrics table, the assessments table, and after them the
    statistics of the batch; it reads nothing back. *)
Theorem log_evaluations_write_order evaluations rid w r w' :
  log_evaluations tm evaluations rid w = (inr r, w') →
  ∃ stats,
    trace w' = trace w ++
      [ELogTable (default (active_run w) rid) "_evaluations.json";
       ELogTable (default (active_run w) rid) "_metrics.json";
       ELogTable (default (active_run w) rid) "_assessments.json"] ++ stats ∧
    Forall (λ ev, match ev with
                  | EComputeStats _ | ELogBatch _ _ => True
                  | _ => False
                  end) stats.
Proof.
  intros Hok. destruct (log_evaluations_ok tm _ _ _ _ _ Hok) as (_ & _ & Ht).
  eexists. split; [exact Ht|].
  unfold stats_events. apply Forall_concat, Forall_fmap, Forall_forall.
  intros n _. simpl. constructor; [done|].
  apply Forall_fmap, Forall_forall. by intros b _.
Qed.





End FacadeEffects.

(** * [log_evaluations_df] *)

Section Frames.

Context (tm : string → AssessmentSource → list AssessmentEntity → list Metric).
Context (render_id : Scalar → string).

Implicit Types (f : Frame) (row : Fields) (w : World).

Lemma missing_labels_nil (labels index : list string) :
  missing_labels labels index = [] ↔ ∀ c, c ∈ labels → c ∈ index.
Proof.
  unfold missing_labels. induction labels as [|x l IH]; simpl.
  - split; [|done]. intros _ c Hc. by apply elem_of_nil in Hc.
  - rewrite filter_cons. destruct (decide (x ∉ index)) as [Hx|Hx].
    + split; [done|]. intros Hall. destruct Hx. apply Hall. left.
    + rewrite IH. apply dec_stable in Hx. split.
      * intros Hall c Hc. apply elem_of_cons in Hc as [->|Hc]; auto.
      * intros Hall c Hc. apply Hall. by right.
Qed.

Lemma field_lookup_is_Some (c : string) row :
  c ∈ map fst row → is_Some (field_lookup c row).
Proof.
  induction row as [|[k v] row IH]; simpl; intros Hc.
  - by apply elem_of_nil in Hc.
  - case_bool_decide; [by eexists|].
    apply elem_of_cons in Hc as [->|Hc]; [done|]. by apply IH.
Qed.

Lemma project_keys (labels : list string) row :
  (∀ c, c ∈ labels → c ∈ map fst row) → map fst (project labels row) = labels.
Proof.
  unfold project. induction labels as [|x l IH]; intros Hall; [done|].
  simpl. destruct (field_lookup_is_Some x row) as [v Hv]; [apply Hall; left|].
  rewrite Hv. simpl. f_equal. apply IH. intros c Hc. apply Hall. by right.
Qed.




Lemma series_getitem_ok (labels : list string) row :
  (∀ c, c ∈ labels → c ∈ map fst row) →
  series_getitem labels row = inr (project labels row).
Proof.
  intros Hall. unfold series_getitem.
  by rewrite (proj2 (missing_labels_nil _ _) Hall).
Qed.

Lemma frame_getitem_ok (labels : list string) f :
  missing_labels labels (frame_columns f) = [] →
  frame_getitem labels f =
  inr {| frame_columns := labels;
         frame_rows := map (project labels) (frame_rows f) |}.
Proof. intros Hm. unfold frame_getitem. by rewrite Hm. Qed.

(** A KeyError of [log_evaluations_df] comes before anything is logged: the
    world is the one the call started in, no identifier drawn, no table
    written. *)
Theorem log_evaluations_df_key_error_logs_nothing
    run f input_cols output_cols inputs_id_col target_cols w labels :
  (log_evaluations_df tm render_id run f input_cols output_cols
     inputs_id_col target_cols w).1 = inl (KeyError labels) →
  (log_evaluations_df tm render_id run f input_cols output_cols
     inputs_id_col target_cols w).2 = w.
Proof.
  unfold log_evaluations_df.
  destruct (frame_getitem (input_cols ++ output_cols) f) as [e|eval_data];
    [done|].
  destruct (if truthy_list target_cols then _ else _) as [e|target_data];
    [done|].
  destruct (rows_to_evaluations _ _) as [e|evaluations]; [done|].
  destruct (log_evaluations tm evaluations (Some run) w) as [[e|es] w'];
    [done|].
  unfold frame_setitem. simpl. by case_bool_decide.
Qed.

(** The row the loop works on is a row of [eval_data]: it has the input and
    output columns and no other. *)
Lemma selected_row_keys f input_cols output_cols row :
  frame_wf f →
  missing_labels (input_cols ++ output_cols) (frame_columns f) = [] →
  row ∈ frame_rows f →
  map fst (project (input_cols ++ output_cols) row) = input_cols ++ output_cols.
Proof.
  intros Hwf Hm Hrow. apply project_keys. intros c Hc.
  unfold frame_wf in Hwf. rewrite Forall_forall in Hwf. rewrite (Hwf _ Hrow).
  by apply (proj1 (missing_labels_nil _ _) Hm).
Qed.

(** Target columns must be input or output columns: the loop reads the
    targets from the row of [eval_data], which holds the input and output
    columns only.  On a frame with at least one row, target columns that
    exist in the frame but are not all among the input and output columns
    make [log_evaluations_df] raise KeyError for those labels, with nothing
    logged. *)
Theorem log_evaluations_df_targets_outside_selection
    run f input_cols output_cols inputs_id_col tc w row rest :
  frame_wf f →
  frame_rows f = row :: rest →
  missing_labels (input_cols ++ output_cols) (frame_columns f) = [] →
  missing_labels tc (frame_columns f) = [] →
  missing_labels tc (input_cols ++ output_cols) ≠ [] →
  log_evaluations_df tm render_id run f input_cols output_cols
    inputs_id_col (Some tc) w =
  (inl (KeyError (missing_labels tc (input_cols ++ output_cols))), w).
Proof.
  intros Hwf Hrows Hcols Htc Hout. unfold log_evaluations_df.
  rewrite (frame_getitem_ok _ _ Hcols).
  assert (truthy_list (Some tc) = true) as ->.
  { destruct tc; [|done]. by destruct Hout. }
  simpl. rewrite (frame_getitem_ok _ _ Htc). rewrite Hrows. simpl.
  unfold row_to_evaluation.
  assert (map fst (project (input_cols ++ output_cols) row) =
          input_cols ++ output_cols) as Hkeys.
  { apply (selected_row_keys f); [done|done|]. rewrite Hrows. left. }
  rewrite !series_getitem_ok
    by (intros c Hc; rewrite Hkeys; apply elem_of_app; auto).
  unfold series_getitem. simpl. rewrite Hkeys.
  by destruct (missing_labels tc (input_cols ++ output_cols)).
Qed.

(** The id column must be an input or output column, for the same reason:
    on a frame with at least one row, an [inputs_id_col] that is not among
    the input and output columns makes [log_evaluations_df] raise KeyError
    for it, with nothing logged, even when the frame has that column. *)
Theorem log_evaluations_df_id_outside_selection
    run f input_cols output_cols ic w row rest :
  frame_wf f →
  frame_rows f = row :: rest →
  missing_labels (input_cols ++ output_cols) (frame_columns f) = [] →
  ic ≠ "" →
  ic ∉ input_cols ++ output_cols →
  log_evaluations_df tm render_id run f input_cols output_cols
    (Some ic) None w =
  (inl (KeyError [ic]), w).
Proof.
  intros Hwf Hrows Hcols Hic Hout. unfold log_evaluations_df.
  rewrite (frame_getitem_ok _ _ Hcols). simpl. rewrite Hrows. simpl.
  unfold row_to_evaluation.
  assert (map fst (project (input_cols ++ output_cols) row) =
          input_cols ++ output_cols) as Hkeys.
  { apply (selected_row_keys f); [done|done|]. rewrite Hrows. left. }
  rewrite !series_getitem_ok
    by (intros c Hc; rewrite Hkeys; apply elem_of_app; auto).
  unfold truthy_string. rewrite bool_decide_eq_false_2 by done. simpl.
  unfold series_get.
  destruct (field_lookup ic (project (input_cols ++ output_cols) row))
    as [v|] eqn:Hv; [|done].
  exfalso. apply Hout. rewrite <- Hkeys.
  clear -Hv. induction (project (input_cols ++ output_cols) row) as [|[k v'] r IH];
    [done|].
  simpl in *. case_bool_decide; [subst; left|]. right. by apply IH.
Qed.




End Frames.

(** * Instances of the further properties *)

Lemma add_assessment_raises_only_type_mismatch_witness :
  _add_assessment_to_df [_to_entity "e1" relevance_true]
    (_to_entity "e1" relevance_rescored) "e1" =
    inl (MlflowException
           (value_type_mismatch_message "relevance" VNumeric VBoolean)
           INVALID_PARAMETER_VALUE) ∧
  type_conflict [_to_entity "e1" relevance_true]
    (_to_entity "e1" relevance_rescored) "e1".
Proof.
  split; [reflexivity|].
  by destruct (add_assessment_raises_only_type_mismatch
                 [_to_entity "e1" relevance_true]
                 (_to_entity "e1" relevance_rescored) "e1" _ eq_refl).
Defined.

Lemma merge_last_write_wins_witness :
  merge [] (_to_entity "e1" relevance_true) =
    inr [_to_entity "e1" relevance_true] ∧
  merge [_to_entity "e1" relevance_true] (_to_entity "e1" relevance_revised) =
  merge [] (_to_entity "e1" relevance_revised).
Proof.
  split; [reflexivity|].
  by apply (merge_last_write_wins [] (_to_entity "e1" relevance_true)
              (_to_entity "e1" relevance_revised)).
Defined.

Lemma merge_then_lookup_witness :
  merge [_to_entity "e1" relevance_true] (_to_entity "e1" relevance_false) =
    inr [_to_entity "e1" relevance_true; _to_entity "e1" relevance_false] ∧
  _to_entity "e1" relevance_false ∈
    [_to_entity "e1" relevance_true; _to_entity "e1" relevance_false].
Proof.
  split; [reflexivity|].
  by destruct (merge_then_lookup [_to_entity "e1" relevance_true]
                 (_to_entity "e1" relevance_false) _ eq_refl).
Defined.

Lemma add_all_keeps_other_rows_witness :
  ∃ df',
    add_all [_to_entity "e2" relevance_true]
      (map (_to_entity "e1") [relevance_false; relevance_revised]) "e1" = inr df' ∧
    (length df' ≤ 3)%nat ∧
    df' !! 0 = Some (_to_entity "e2" relevance_true).
Proof.
  eexists. split; [reflexivity|].
  destruct (add_all_keeps_other_rows [_to_entity "e2" relevance_true]
              [relevance_false; relevance_revised] "e1" _ eq_refl)
    as [[_ Hlen] Hrows].
  split; [exact Hlen|].
  apply Hrows; [reflexivity|]. by left.
Defined.

Lemma logged_row_well_formed :
  same_type_invariant [_to_entity "evaluation-0" relevance_true] ∧
  unique_keys [_to_entity "evaluation-0" relevance_true].
Proof.
  split.
  - intros r1 r2 H1 H2 _ _.
    apply list_elem_of_singleton in H1 as ->.
    by apply list_elem_of_singleton in H2 as ->.
  - apply NoDup_singleton.
Defined.

Lemma log_assessments_keeps_table_well_formed_witness :
  ∃ df1,
    assessments_json
      (get_run (log_assessments dataframes_to_evaluations_model count_to_metrics
                  "evaluation-0" (OneObject relevance_false) None logged_world).2
         "run0") = Some df1 ∧
    same_type_invariant df1 ∧ unique_keys df1.
Proof.
  apply (log_assessments_keeps_table_well_formed
           dataframes_to_evaluations_model count_to_metrics logged_world
           "evaluation-0" (OneObject relevance_false) None _
           [_to_entity "evaluation-0" relevance_true]).
  - vm_compute. reflexivity.
  - apply logged_row_well_formed.
  - apply logged_row_well_formed.
  - vm_compute. reflexivity.
Defined.

Lemma log_assessments_rejects_mixed_batch_witness :
  ∃ msg w',
    log_assessments dataframes_to_evaluations_model count_to_metrics
      "evaluation-0" (Many [AsObject relevance_false; AsObject relevance_score])
      None logged_world =
      (inl (MlflowException msg INVALID_PARAMETER_VALUE), w') ∧
    runs w' = runs logged_world.
Proof.
  eapply (log_assessments_rejects_mixed_batch
            dataframes_to_evaluations_model count_to_metrics logged_world
            "evaluation-0" _ None _ [relevance_false; relevance_score]
            relevance_false relevance_score).
  - vm_compute. reflexivity.
  - reflexivity.
  - left.
  - right. left.
  - reflexivity.
  - discriminate.
Defined.

Lemma log_assessments_empty_batch_witness :
  artifact_store_writable logged_world = true ∧
  ∃ w',
    log_assessments dataframes_to_evaluations_model count_to_metrics
      "evaluation-0" (Many []) None logged_world = (inr (), w') ∧
    runs w' = runs logged_world.
Proof.
  split; [reflexivity|].
  edestruct (log_assessments_empty_batch
               dataframes_to_evaluations_model count_to_metrics logged_world
               "evaluation-0" None) as (w' & Hrun & Hruns & _).
  - vm_compute. reflexivity.
  - reflexivity.
  - by exists w'.
Defined.

Lemma log_evaluations_assigns_fresh_ids_witness :
  ∃ r w',
    log_evaluations count_to_metrics [sample_evaluation; mixed_evaluation] None
      empty_world = (inr r, w') ∧
    length r = 2 ∧
    map entity_evaluation_id r = ["evaluation-0"; "evaluation-1"] ∧
    uuid_count w' = 2.
Proof.
  eexists _, _. split; [vm_compute; reflexivity|].
  edestruct (log_evaluations_assigns_fresh_ids count_to_metrics
               [sample_evaluation; mixed_evaluation] None empty_world)
    as (Hlen & Hids & Hcount & _).
  { vm_compute. reflexivity. }
  split; [exact Hlen|]. split; [exact Hids|exact Hcount].
Defined.

Lemma log_evaluations_then_get_evaluation_witness :
  has_all_tables (get_run logged_world "run0") ∧
  has_evaluation_row (get_run logged_world "run0") "evaluation-0".
Proof.
  edestruct (log_evaluations_then_get_evaluation
               dataframes_to_evaluations_model count_to_metrics
               [sample_evaluation] None empty_world
               [evaluation_to_entity "run0" "evaluation-0" sample_evaluation]
               logged_world
               (evaluation_to_entity "run0" "evaluation-0" sample_evaluation))
    as (Htables & Hrow & _).
  - vm_compute. reflexivity.
  - left.
  - split; [exact Htables|exact Hrow].
Defined.

Lemma sample_frame_wf : frame_wf sample_frame.
Proof. by repeat constructor. Defined.

Lemma log_evaluations_df_key_error_logs_nothing_witness :
  (log_evaluations_df count_to_metrics render_scalar "run0" sample_frame
     ["question"] ["reply"] None None empty_world).1 = inl (KeyError ["reply"]) ∧
  (log_evaluations_df count_to_metrics render_scalar "run0" sample_frame
     ["question"] ["reply"] None None empty_world).2 = empty_world.
Proof.
  split; [reflexivity|].
  by apply (log_evaluations_df_key_error_logs_nothing count_to_metrics
              render_scalar "run0" sample_frame ["question"] ["reply"] None None
              empty_world ["reply"]).
Defined.

Lemma log_evaluations_df_targets_outside_selection_witness :
  missing_labels ["expected"] (frame_columns sample_frame) = [] ∧
  log_evaluations_df count_to_metrics render_scalar "run0" sample_frame
    ["question"] ["answer"] None (Some ["expected"]) empty_world =
  (inl (KeyError ["expected"]), empty_world).
Proof.
  split; [reflexivity|].
  by apply (log_evaluations_df_targets_outside_selection count_to_metrics
              render_scalar "run0" sample_frame ["question"] ["answer"] None
              ["expected"] empty_world _ _ sample_frame_wf eq_refl).
Defined.

Lemma log_evaluations_df_id_outside_selection_witness :
  "expected" ∈ frame_columns sample_frame ∧
  log_evaluations_df count_to_metrics render_scalar "run0" sample_frame
    ["question"] ["answer"] (Some "expected") None empty_world =
  (inl (KeyError ["expected"]), empty_world).
Proof.
  split; [by do 2 right; left|].
  apply (log_evaluations_df_id_outside_selection count_to_metrics
           render_scalar "run0" sample_frame ["question"] ["answer"]
           "expected" empty_world _ _ sample_frame_wf eq_refl);
    [reflexivity|discriminate|].
  intros Hin.
  repeat (apply elem_of_cons in Hin as [Hin|Hin]; [discriminate|]).
  by apply elem_of_nil in Hin.
Defined.


Lemma log_evaluations_write_order_witness :
  take 3 (trace logged_world) =
  [ELogTable "run0" "_evaluations.json"; ELogTable "run0" "_metrics.json";
   ELogTable "run0" "_assessments.json"].
Proof.
  destruct (log_evaluations_write_order count_to_metrics [sample_evaluation]
              None empty_world
              [evaluation_to_entity "run0" "evaluation-0" sample_evaluation]
              logged_world) as (stats & Ht & _).
  { vm_compute. reflexivity. }
  by rewrite Ht.
Defined.
